(** * Ray-Ban metadata tool: the resolver, the verifier and the orchestrator

    A shallow embedding of the TypeScript sources
    ([metadata-generator.ts], [constants.ts], [types.ts],
    [video-processor.ts], [ffmpeg-processor.ts]) together with the
    properties of them that the specification states.

    Conventions.
    - A JavaScript value of type [string | undefined] is an [option string];
      [None] is [undefined].
    - Strings are byte strings, the UTF-8 text of the JavaScript string;
      every literal of the sources is kept as is.
    - Calls that leave the program (file system, exiftool, ffmpeg, the clock)
      are answered by an oracle and recorded in a trace. *)

From Stdlib Require Import String Ascii List ZArith Lia Bool DecimalString.
From stdpp Require Import base option gmap strings list.

Open Scope string_scope.
Open Scope list_scope.

(* ================================================================== *)
(** ** The fragment of JavaScript the sources rely on *)
(* ================================================================== *)

Module JS.

(** Truthiness of a [string | undefined]: [undefined] and [''] are falsy. *)
Definition truthy (v : option string) : bool :=
  match v with
  | Some (String _ _) => true
  | _ => false
  end.

(** [v || d] where [v : string | undefined] and [d : string]. *)
Definition or_else (v : option string) (d : string) : string :=
  match v with
  | Some (String c s) => String c s
  | _ => d
  end.

(** [s.includes(needle)]. *)
Fixpoint includes (needle s : string) : bool :=
  String.prefix needle s ||
  match s with
  | EmptyString => false
  | String _ s' => includes needle s'
  end.

Fixpoint drop (n : nat) (s : string) : string :=
  match n, s with
  | S n', String _ s' => drop n' s'
  | _, _ => s
  end.

(** [s.replace(pat, rep)] with a string pattern: the first occurrence only. *)
Fixpoint replace (pat rep s : string) : string :=
  if String.prefix pat s then rep +:+ drop (String.length pat) s
  else match s with
       | EmptyString => EmptyString
       | String c s' => String c (replace pat rep s')
       end.

(** [s.substring(a, b)]: the arguments are swapped when [a > b]. *)
Definition substring (a b : nat) (s : string) : string :=
  String.substring (Nat.min a b) (Nat.max a b - Nat.min a b) s.

Definition lower_ascii (c : ascii) : ascii :=
  let n := nat_of_ascii c in
  if (65 <=? n)%nat && (n <=? 90)%nat then ascii_of_nat (n + 32) else c.

(** The three bytes of U+212A KELVIN SIGN in UTF-8. *)
Definition kelvin_sign : string :=
  String "226" (String "132" (String "170" EmptyString)).

Definition is_kelvin_sign (a b c : ascii) : bool :=
  Ascii.eqb a "226" && Ascii.eqb b "132" && Ascii.eqb c "170".

(** [s.toLowerCase()] on the UTF-8 text of [s].  The ASCII capitals are
    lowered, and so is U+212A KELVIN SIGN, whose lower case is the ASCII
    letter [k]: it is the one character outside ASCII that Unicode lowers to
    an ASCII character.  Every other character outside ASCII is kept as it
    is; its lower case is outside ASCII as well (that of U+0130 is [i]
    followed by U+0307), so whether the result equals an ASCII string, the
    one question the sources ask of it, is answered as JavaScript answers
    it. *)
Fixpoint toLowerCase (s : string) : string :=
  match s with
  | EmptyString => EmptyString
  | String c s' =>
      match s' with
      | String c1 (String c2 s'') =>
          if is_kelvin_sign c c1 c2 then String "k" (toLowerCase s'')
          else String (lower_ascii c) (toLowerCase s')
      | _ => String (lower_ascii c) (toLowerCase s')
      end
  end.






(** *** Property lookup on an object literal

    [o[k]] on an object written as a literal first looks at the object's own
    properties and then at [Object.prototype]. *)

Definition Object_prototype_keys : list string :=
  [ "constructor"; "__defineGetter__"; "__defineSetter__"; "hasOwnProperty";
    "__lookupGetter__"; "__lookupSetter__"; "isPrototypeOf";
    "propertyIsEnumerable"; "toString"; "valueOf"; "__proto__";
    "toLocaleString" ].

Definition is_prototype_key (k : string) : bool :=
  existsb (String.eqb k) Object_prototype_keys.

Inductive Property (A : Type) : Type :=
| Own (v : A)          (* an own property of the literal *)
| Inherited            (* a member of [Object.prototype]: a function, or
                          [Object.prototype] itself for [__proto__] *)
| Undefined.
Arguments Own {A} v.
Arguments Inherited {A}.
Arguments Undefined {A}.

Definition get {A} (o : gmap string A) (k : string) : Property A :=
  match o !! k with
  | Some v => Own v
  | None => if is_prototype_key k then Inherited else Undefined
  end.

(** Objects and functions are truthy, [undefined] is not. *)
Definition truthy_property {A} (p : Property A) : bool :=
  match p with
  | Undefined => false
  | _ => true
  end.

(** [p.f] for a field [f] of the literal's entries: the members of
    [Object.prototype] have no such field, so the read gives [undefined]. *)
Definition field {A B} (f : A -> B) (p : Property A) : option B :=
  match p with
  | Own v => Some (f v)
  | _ => None
  end.

(** *** Dates

    The value of [new Date()], read through its UTC fields, as
    [Date.prototype.toISOString] does. *)
Record Date : Type := mkDate {
  utcFullYear : Z;
  utcMonth : nat;          (* 0 .. 11 *)
  utcDate : nat;           (* 1 .. 31 *)
  utcHours : nat;
  utcMinutes : nat;
  utcSeconds : nat;
  utcMilliseconds : nat
}.

Definition digit (n : nat) : ascii := ascii_of_nat (48 + n mod 10).

(** The [w] low decimal digits of [n], zero padded. *)
Fixpoint digits (w n : nat) : string :=
  match w with
  | O => EmptyString
  | S w' => digits w' (n / 10) +:+ String (digit n) EmptyString
  end.

(** Years 0 to 9999 print with four digits, the others with a sign and six. *)
Definition iso_year (y : Z) : string :=
  if (0 <=? y)%Z && (y <=? 9999)%Z then digits 4 (Z.to_nat y)
  else if (y <? 0)%Z then "-" +:+ digits 6 (Z.to_nat (- y))
  else "+" +:+ digits 6 (Z.to_nat y).

(** [String(n)] for a natural number, as a template literal prints it. *)
Definition string_of_nat (n : nat) : string :=
  NilZero.string_of_uint (Nat.to_uint n).

Definition string_of_N (n : N) : string :=
  NilZero.string_of_uint (N.to_uint n).

Definition toISOString (d : Date) : string :=
  iso_year (utcFullYear d) +:+ "-" +:+ digits 2 (utcMonth d + 1) +:+ "-" +:+
  digits 2 (utcDate d) +:+ "T" +:+ digits 2 (utcHours d) +:+ ":" +:+
  digits 2 (utcMinutes d) +:+ ":" +:+ digits 2 (utcSeconds d) +:+ "." +:+
  digits 3 (utcMilliseconds d) +:+ "Z".

End JS.

(* ================================================================== *)
(** ** [constants.ts] *)
(* ================================================================== *)

Module Constants.

Inductive LatitudeRef : Type := N | S.
Inductive LongitudeRef : Type := E | W.

Record CameraPreset : Type := {
  make : string;
  model : string;
  software : string;
  lensModel : string;
  cameraModelName : string;
  deviceType : string;
  captureMode : string;
  audioChannels : nat;
  microphone : string;
  fieldOfView : string;
  imageStabilization : string;
  gpsLatitude : string;
  gpsLongitude : string;
  gpsAltitude : string;
  gpsLatitudeRef : LatitudeRef;
  gpsLongitudeRef : LongitudeRef;
  defaultComment : string
}.

Record Location : Type := { lat : string; lon : string; alt : string }.

Definition FRONT_CAMERA : CameraPreset := {|
  make := "Meta";
  model := "Ray-Ban Stories";
  software := "Meta Camera v2.1.4";
  lensModel := "Ray-Ban Stories Front Camera 5.5mm f/2.0";
  cameraModelName := "Meta Ray-Ban Stories";
  deviceType := "Smart Glasses";
  captureMode := "Video";
  audioChannels := 2;
  microphone := "Beamforming Array";
  fieldOfView := "87°";
  imageStabilization := "Electronic";
  gpsLatitude := "40.7128";
  gpsLongitude := "-74.0060";
  gpsAltitude := "10";
  gpsLatitudeRef := N;
  gpsLongitudeRef := W;
  defaultComment :=
    "Recorded on Meta Ray-Ban Smart Glasses - First-person perspective"
|}.

Definition MAIN_CAMERA : CameraPreset := {|
  make := "Meta";
  model := "Ray-Ban Meta";
  software := "Meta Camera v3.0.1";
  lensModel := "Ray-Ban Stories Wide Angle 12mm f/1.8";
  cameraModelName := "Meta Ray-Ban";
  deviceType := "Smart Glasses Camera";
  captureMode := "Hands-free Video";
  audioChannels := 4;
  microphone := "5-microphone array with noise cancellation";
  fieldOfView := "120° ultra-wide";
  imageStabilization := "Optical + Electronic";
  gpsLatitude := "37.7749";
  gpsLongitude := "-122.4194";
  gpsAltitude := "5";
  gpsLatitudeRef := N;
  gpsLongitudeRef := W;
  defaultComment :=
    "Captured with Meta Ray-Ban Smart Glasses - Hands-free recording"
|}.

(** The entries of the [LOCATIONS] literal, in source order. *)
Definition LOCATIONS_entries : list (string * Location) :=
  [ ("new-york", {| lat := "40.7128"; lon := "-74.0060"; alt := "10" |});
    ("san-francisco", {| lat := "37.7749"; lon := "-122.4194"; alt := "5" |});
    ("london", {| lat := "51.5074"; lon := "-0.1278"; alt := "15" |});
    ("tokyo", {| lat := "35.6762"; lon := "139.6503"; alt := "20" |});
    ("paris", {| lat := "48.8566"; lon := "2.3522"; alt := "35" |});
    ("default", {| lat := "37.7749"; lon := "-122.4194"; alt := "5" |}) ].

Definition LOCATIONS : gmap string Location := list_to_map LOCATIONS_entries.

End Constants.

(* ================================================================== *)
(** ** [types.ts] *)
(* ================================================================== *)

Module Types.

Record RayBanMetadataOptions : Type := {
  make : string;
  model : string;
  software : string;
  lensModel : string;
  createDate : string;
  modifyDate : string;
  cameraModelName : string;
  deviceType : string;
  captureMode : string;
  audioChannels : nat;
  microphone : string;
  fieldOfView : string;
  imageStabilization : string;
  comment : string;
  gpsLatitude : option string;
  gpsLongitude : option string;
  gpsAltitude : option string;
  gpsLatitudeRef : Constants.LatitudeRef;
  gpsLongitudeRef : Constants.LongitudeRef
}.

Record RayBanConfig : Type := {
  frontCamera : option bool;
  hasAudio : option bool;
  customDate : option string;
  latitude : option string;
  longitude : option string;
  altitude : option string;
  locationName : option string;
  customComment : option string
}.

(** The configuration [{}]. *)
Definition empty_config : RayBanConfig := {|
  frontCamera := None; hasAudio := None; customDate := None;
  latitude := None; longitude := None; altitude := None;
  locationName := None; customComment := None
|}.

Record VideoFile : Type := {
  path : string;
  name : string;
  size : nat;
  extension : string
}.

End Types.

(* ================================================================== *)
(** ** [metadata-generator.ts] *)
(* ================================================================== *)

Module MetadataGenerator.
Import Types.

(** The camera preset selected by [frontCamera] (default [false]). *)
Definition preset_of (config : RayBanConfig) : Constants.CameraPreset :=
  if default false (frontCamera config)
  then Constants.FRONT_CAMERA else Constants.MAIN_CAMERA.

(** The value of the local [date]. *)
Definition resolve_date (now : JS.Date) (config : RayBanConfig) : string :=
  JS.or_else (customDate config)
    (JS.substring 0 19 (JS.replace "T" " " (JS.toISOString now))).

(** The value of the local [location] after the [if / else if / else] of
    lines 22-30.  Under a truthiness test the tested string is there, so
    [default ""] only unwraps it. *)
Definition resolve_location (config : RayBanConfig)
  : JS.Property Constants.Location :=
  if JS.truthy (latitude config) && JS.truthy (longitude config) then
    JS.Own {| Constants.lat := default "" (latitude config);
              Constants.lon := default "" (longitude config);
              Constants.alt := JS.or_else (altitude config) "5" |}
  else if JS.truthy (locationName config)
          && JS.truthy_property
               (JS.get Constants.LOCATIONS (default "" (locationName config)))
  then JS.get Constants.LOCATIONS (default "" (locationName config))
  else if default false (frontCamera config)
       then JS.get Constants.LOCATIONS "new-york"
       else JS.get Constants.LOCATIONS "san-francisco".

Definition generateMetadata (now : JS.Date) (config : RayBanConfig)
  : RayBanMetadataOptions :=
  let hasAudio := default true (hasAudio config) in
  let preset := preset_of config in
  let date := resolve_date now config in
  let location := resolve_location config in
  {| make := Constants.make preset;
     model := Constants.model preset;
     software := Constants.software preset;
     lensModel := Constants.lensModel preset;
     createDate := date;
     modifyDate := date;
     cameraModelName := Constants.cameraModelName preset;
     deviceType := Constants.deviceType preset;
     captureMode := Constants.captureMode preset;
     audioChannels := if hasAudio then Constants.audioChannels preset else 0;
     microphone := if hasAudio then Constants.microphone preset else "None";
     fieldOfView := Constants.fieldOfView preset;
     imageStabilization := Constants.imageStabilization preset;
     comment := JS.or_else (customComment config) (Constants.defaultComment preset);
     gpsLatitude := JS.field Constants.lat location;
     gpsLongitude := JS.field Constants.lon location;
     gpsAltitude := JS.field Constants.alt location;
     gpsLatitudeRef := Constants.gpsLatitudeRef preset;
     gpsLongitudeRef := Constants.gpsLongitudeRef preset |}.








End MetadataGenerator.

(* ================================================================== *)
(** ** Node's [path] module, POSIX flavour

    The sources call [path.extname], [path.basename], [path.dirname] and
    [path.join].  They are modelled on the components of a path: the text
    is cut at every ['/'], and the component a function works on is the last
    non-empty one (trailing separators are skipped). *)
(* ================================================================== *)

Module path.

Definition is_slash (c : ascii) : bool := Ascii.eqb c "/".
Definition is_dot (c : ascii) : bool := Ascii.eqb c ".".

(** The pieces of [s] between separators, empty pieces included; never [[]]. *)
Fixpoint split (s : string) : list string :=
  match s with
  | EmptyString => [EmptyString]
  | String c s' =>
      if is_slash c then EmptyString :: split s'
      else match split s' with
           | x :: xs => String c x :: xs
           | [] => [String c EmptyString]
           end
  end.

Definition nonempty (s : string) : bool :=
  match s with EmptyString => false | _ => true end.

(** [segs] as [pre ++ [seg] ++ post] with [seg] the last non-empty piece. *)
Fixpoint split_last (segs : list string)
  : option (list string * string * list string) :=
  match segs with
  | [] => None
  | s :: rest =>
      match split_last rest with
      | Some (pre, seg, post) => Some (s :: pre, seg, post)
      | None => if nonempty s then Some ([], s, rest) else None
      end
  end.

(** The last path component, [""] when there is none. *)
Definition last_component (p : string) : string :=
  match split_last (split p) with
  | Some (_, seg, _) => seg
  | None => ""
  end.

(** [seg] cut at its last dot: the text before it, and the dot with the rest. *)
Fixpoint split_ext (seg : string) : option (string * string) :=
  match seg with
  | EmptyString => None
  | String c s' =>
      match split_ext s' with
      | Some (stem, e) => Some (String c stem, e)
      | None => if is_dot c then Some (EmptyString, seg) else None
      end
  end.

(** [path.extname]: from the last dot of the last component to its end;
    [''] when there is no dot, when the dot is the component's first
    character, or when the component is ['..']. *)
Definition extname (p : string) : string :=
  match split_ext (last_component p) with
  | Some (EmptyString, _) => ""
  | Some (stem, e) => if String.eqb stem "." && String.eqb e "." then "" else e
  | None => ""
  end.

(** [s] without its suffix [sfx], when it has it. *)
Fixpoint strip_suffix (sfx s : string) : option string :=
  if String.eqb s sfx then Some EmptyString
  else match s with
       | EmptyString => None
       | String c s' => option_map (String c) (strip_suffix sfx s')
       end.

Fixpoint slashes (n : nat) : string :=
  match n with
  | O => EmptyString
  | Datatypes.S n' => String "/" (slashes n')
  end.

(** [path.basename(p, suffix)].  With a usable suffix (non-empty, not longer
    than [p]) the last component loses it, unless the component is the suffix
    itself; a component that is only the tail of the suffix comes back with
    the separators that follow it. *)
Definition basename (p : string) (suffix : option string) : string :=
  let plain := last_component p in
  match suffix with
  | Some sfx =>
      if nonempty sfx && (String.length sfx <=? String.length p)%nat then
        if String.eqb sfx p then ""
        else
          match split_last (split p) with
          | Some (_, seg, post) =>
              match strip_suffix sfx seg with
              | Some EmptyString => seg
              | Some stem => stem
              | None =>
                  match strip_suffix seg sfx with
                  | Some _ => seg +:+ slashes (List.length post)
                  | None => seg
                  end
              end
          | None => p
          end
      else plain
  | None => plain
  end.

Fixpoint join_with (sep : string) (l : list string) : string :=
  match l with
  | [] => EmptyString
  | [x] => x
  | x :: rest => x +:+ sep +:+ join_with sep rest
  end.

(** [path.dirname]: the text before the separator that precedes the last
    component. *)
Definition dirname (p : string) : string :=
  match p with
  | EmptyString => "."
  | String c _ =>
      match split_last (split p) with
      | None => if is_slash c then "/" else "."
      | Some (pre, _, _) =>
          match pre with
          | [] => "."
          | [EmptyString] => "/"
          | [EmptyString; EmptyString] => "//"
          | _ => join_with "/" pre
          end
      end
  end.

Definition is_dotdot (s : string) : bool := String.eqb s "..".

(** One component pushed on the components kept so far (most recent first). *)
Definition normalize_step (allowAboveRoot : bool) (kept : list string)
  (seg : string) : list string :=
  if String.eqb seg "" || String.eqb seg "." then kept
  else if is_dotdot seg then
    match kept with
    | top :: below =>
        if is_dotdot top
        then (if allowAboveRoot then seg :: kept else kept)
        else below
    | [] => if allowAboveRoot then [seg] else []
    end
  else seg :: kept.

Definition normalizeString (p : string) (allowAboveRoot : bool) : string :=
  join_with "/" (List.rev (fold_left (normalize_step allowAboveRoot) (split p) [])).

Definition ends_with_slash (p : string) : bool :=
  match List.last (split p) "x" with
  | EmptyString => nonempty p
  | _ => false
  end.

(** [path.normalize]. *)
Definition normalize (p : string) : string :=
  match p with
  | EmptyString => "."
  | String c _ =>
      let isAbsolute := is_slash c in
      let trailingSeparator := ends_with_slash p in
      let res := normalizeString p (negb isAbsolute) in
      match res with
      | EmptyString =>
          if isAbsolute then "/" else if trailingSeparator then "./" else "."
      | _ =>
          let res' := if trailingSeparator then res +:+ "/" else res in
          if isAbsolute then "/" +:+ res' else res'
      end
  end.

(** [path.join(...args)]: the non-empty arguments, joined by ['/'] and
    normalized. *)
Definition join (args : list string) : string :=
  match List.filter nonempty args with
  | [] => "."
  | parts => normalize (join_with "/" parts)
  end.

End path.

(* ================================================================== *)
(** ** Promises, exceptions and the outside world

    An [async] function is a computation over the world that either
    resolves to a value or rejects with an error message.  The world holds
    the calls made so far to the file system, exiftool and ffmpeg (most
    recent first) and the lines written to the console. *)
(* ================================================================== *)

Module IO.

Inductive Result (A : Type) : Type :=
| Ok (a : A)
| Throw (message : string).
Arguments Ok {A} a.
Arguments Throw {A} message.

Record Stats : Type := { isFile : bool; size : nat }.

(** The tag object handed to [exiftool.write]. *)
Record WritableTags : Type := {
  Make : string;
  Model : string;
  Software : string;
  LensModel : string;
  CreateDate : string;
  ModifyDate : string;
  Comment : string;
  GPSLatitude : option string;
  GPSLongitude : option string;
  GPSAltitude : option string;
  GPSLatitudeRef : Constants.LatitudeRef;
  GPSLongitudeRef : Constants.LongitudeRef
}.

Inductive Call : Type :=
| FsReaddir (directory : string)
| FsStat (p : string)
| FsCopyFile (src dest : string)
| FsUnlink (p : string)
| ExiftoolRead (p : string)
| ExiftoolWrite (p : string) (tags : WritableTags)
| FfmpegProcess (input output : string) (config : Types.RayBanConfig)
| FfmpegConcat (inputs : list string) (filterComplex : string) (output : string).

Record World : Type := mkWorld {
  calls : list Call;
  console : list string
}.

(** What the outside answers, given everything that was called before. *)
Record Oracle : Type := {
  readdir : list Call -> string -> Result (list string);
  stat : list Call -> string -> Result Stats;
  copyFile : list Call -> string -> string -> Result unit;
  unlink : list Call -> string -> Result unit;
  exiftool_read : list Call -> string -> Result (gmap string string);
  exiftool_write : list Call -> string -> WritableTags -> Result unit;
  ffmpeg_run : list Call -> Call -> Result unit;
  clock : list Call -> JS.Date;          (* [new Date()] *)
  clock_ms : list Call -> N              (* [Date.now()] *)
}.

Definition IO (A : Type) : Type := World -> Result A * World.

Definition ret {A} (a : A) : IO A := fun w => (Ok a, w).

Definition throw {A} (message : string) : IO A := fun w => (Throw message, w).

Definition bind {A B} (m : IO A) (k : A -> IO B) : IO B :=
  fun w =>
    match m w with
    | (Ok a, w') => k a w'
    | (Throw e, w') => (Throw e, w')
    end.

(** [try { m } catch (error) { handler }]. *)
Definition try_catch {A} (m : IO A) (handler : string -> IO A) : IO A :=
  fun w =>
    match m w with
    | (Ok a, w') => (Ok a, w')
    | (Throw e, w') => handler e w'
    end.

(** An external call: recorded, then answered from the calls before it. *)
Definition external {A} (c : Call) (answer : list Call -> Result A) : IO A :=
  fun w => (answer (calls w), mkWorld (c :: calls w) (console w)).

Definition console_write (line : string) : IO unit :=
  fun w => (Ok tt, mkWorld (calls w) (line :: console w)).

Definition read_clock (o : Oracle) : IO JS.Date :=
  fun w => (Ok (clock o (calls w)), w).

Definition read_clock_ms (o : Oracle) : IO N :=
  fun w => (Ok (clock_ms o (calls w)), w).

End IO.

Declare Scope io_scope.
Delimit Scope io_scope with io.
Notation "'let*' x ':=' m 'in' k" := (IO.bind m (fun x => k))
  (at level 10, x name, m at level 100, k at level 200) : io_scope.
Notation "m ';;;' k" := (IO.bind m (fun _ => k))
  (at level 100, k at level 200, right associativity) : io_scope.

(* ================================================================== *)
(** ** [ffmpeg-processor.ts] *)
(* ================================================================== *)

Module FFmpegProcessor.
Import IO.
Local Open Scope io_scope.

Section WithOracle.
Variable o : Oracle.

(** [processVideo]: the transcoder run, one external step that resolves to
    [true] or rejects. *)
Definition processVideo (inputPath outputPath : string)
  (config : Types.RayBanConfig) : IO bool :=
  let c := FfmpegProcess inputPath outputPath config in
  let* _ := external c (fun h => ffmpeg_run o h c) in
  ret true.

Definition optimizeForRayBan (inputPath outputPath : string)
  (config : Types.RayBanConfig) : IO bool :=
  processVideo inputPath outputPath config.

(** [inputPaths.map((_, i) => `[${i}:v][${i}:a]`).join('')]. *)
Fixpoint filterInputs (i n : nat) : string :=
  match n with
  | O => EmptyString
  | Datatypes.S n' =>
      "[" +:+ JS.string_of_nat i +:+ ":v][" +:+ JS.string_of_nat i +:+ ":a]"
      +:+ filterInputs (Datatypes.S i) n'
  end.

Definition filterComplex (inputPaths : list string) : string :=
  filterInputs 0 (List.length inputPaths) +:+ "concat=n=" +:+
  JS.string_of_nat (List.length inputPaths) +:+ ":v=1:a=1[outv][outa]".

Definition mergeVideos (inputPaths : list string) (outputPath : string)
  (config : Types.RayBanConfig) : IO bool :=
  if (List.length inputPaths <? 2)%nat then
    throw "At least 2 videos required for merging"
  else
    let c := FfmpegConcat inputPaths (filterComplex inputPaths) outputPath in
    let* _ := external c (fun h => ffmpeg_run o h c) in
    ret true.

End WithOracle.
End FFmpegProcessor.

(* ================================================================== *)
(** ** [video-processor.ts] *)
(* ================================================================== *)

Module VideoProcessor.
Import IO.
Local Open Scope io_scope.

Definition VIDEO_EXTENSIONS : list string :=
  [".mp4"; ".mov"; ".avi"; ".mkv"; ".m4v"; ".webm"].

(** [isVideoFile]; neither [extname] nor [includes] can throw on a string. *)
Definition isVideoFile (filePath : string) : bool :=
  existsb (String.eqb (JS.toLowerCase (path.extname filePath))) VIDEO_EXTENSIONS.

(** [generateOutputPath(inputPath, frontCamera)], lines 117-124. *)
Definition generateOutputPath_base (inputPath : string)
  (frontCamera : option bool) : string :=
  let dir := path.dirname inputPath in
  let name := path.basename inputPath (Some (path.extname inputPath)) in
  let ext := path.extname inputPath in
  let suffix := if default false frontCamera then "_rayban_front" else "_rayban" in
  path.join [dir; name +:+ suffix +:+ ext].

(** [generateOutputPath(inputPath, frontCamera, additionalSuffix)], lines
    383-391: the later member of the class, the one a call reaches. *)
Definition generateOutputPath (inputPath : string) (frontCamera : option bool)
  (additionalSuffix : option string) : string :=
  let dir := path.dirname inputPath in
  let name := path.basename inputPath (Some (path.extname inputPath)) in
  let ext := path.extname inputPath in
  let cameraSuffix :=
    if default false frontCamera then "_rayban_front" else "_rayban" in
  let fullSuffix :=
    if JS.truthy additionalSuffix
    then cameraSuffix +:+ "_" +:+ default "" additionalSuffix
    else cameraSuffix in
  path.join [dir; name +:+ fullSuffix +:+ ext].

Definition generateTempPath (inputPath suffix : string) (timestamp : N)
  : string :=
  let dir := path.dirname inputPath in
  let name := path.basename inputPath (Some (path.extname inputPath)) in
  let ext := path.extname inputPath in
  path.join [dir; name +:+ "_" +:+ suffix +:+ "_" +:+
                  JS.string_of_N timestamp +:+ ext].

Definition writableTags (metadata : Types.RayBanMetadataOptions)
  (comment : string) : WritableTags := {|
  Make := Types.make metadata;
  Model := Types.model metadata;
  Software := Types.software metadata;
  LensModel := Types.lensModel metadata;
  CreateDate := Types.createDate metadata;
  ModifyDate := Types.modifyDate metadata;
  Comment := comment;
  GPSLatitude := Types.gpsLatitude metadata;
  GPSLongitude := Types.gpsLongitude metadata;
  GPSAltitude := Types.gpsAltitude metadata;
  GPSLatitudeRef := Types.gpsLatitudeRef metadata;
  GPSLongitudeRef := Types.gpsLongitudeRef metadata
|}.

Definition requiredTags : list string :=
  ["Make"; "Model"; "Software"; "LensModel"].

(** The callback of [requiredTags.every]:
    [tags[tag] && tags[tag].includes('Ray-Ban') || tags[tag].includes('Meta')],
    that is [(a && b) || c].  When [tags[tag]] is [undefined] the left
    operand is falsy and the right one reads [.includes] of [undefined]. *)
Definition verify_tag (tags : gmap string string) (tag : string) : Result bool :=
  match JS.get tags tag with
  | JS.Own s =>
      if path.nonempty s && JS.includes "Ray-Ban" s then Ok true
      else Ok (JS.includes "Meta" s)
  | JS.Inherited =>
      Throw "TypeError: tags[tag].includes is not a function"
  | JS.Undefined =>
      Throw "TypeError: Cannot read properties of undefined (reading 'includes')"
  end.

(** [Array.prototype.every]: stops at the first falsy answer. *)
Fixpoint every {A} (f : A -> Result bool) (l : list A) : Result bool :=
  match l with
  | [] => Ok true
  | x :: rest =>
      match f x with
      | Ok true => every f rest
      | Ok false => Ok false
      | Throw e => Throw e
      end
  end.

Definition lift {A} (r : Result A) : IO A := fun w => (r, w).

Section WithOracle.
Variable o : Oracle.

Fixpoint getVideoFiles_loop (directory : string) (files : list string)
  (videoFiles : list Types.VideoFile) : IO (list Types.VideoFile) :=
  match files with
  | [] => ret videoFiles
  | file :: rest =>
      let filePath := path.join [directory; file] in
      let* st := external (FsStat filePath) (fun h => stat o h filePath) in
      if isFile st && isVideoFile filePath then
        getVideoFiles_loop directory rest
          (videoFiles ++
           [ {| Types.path := filePath; Types.name := file;
                Types.size := size st; Types.extension := path.extname file |} ])
      else getVideoFiles_loop directory rest videoFiles
  end.

Definition getVideoFiles (directory : string) : IO (list Types.VideoFile) :=
  let* files := external (FsReaddir directory) (fun h => readdir o h directory) in
  getVideoFiles_loop directory files [].

(** [addMetadata], lines 41-115. *)
Definition addMetadata (inputPath : string) (outputPath : option string)
  (config : Types.RayBanConfig) (processVideo : bool) : IO bool :=
  try_catch
    (if negb (isVideoFile inputPath) then
       throw ("File is not a supported video: " +:+ inputPath)
     else
       let finalOutputPath :=
         JS.or_else outputPath
           (generateOutputPath inputPath (Types.frontCamera config) None) in
       let* now := read_clock o in
       let metadata := MetadataGenerator.generateMetadata now config in
       let* processingPath :=
         (if processVideo then
            let* timestamp := read_clock_ms o in
            let tempOutputPath := generateTempPath inputPath "processed" timestamp in
            let* _ := FFmpegProcessor.processVideo o inputPath tempOutputPath config in
            ret tempOutputPath
          else ret inputPath) in
       let* _ :=
         (if String.eqb finalOutputPath processingPath then ret tt
          else external (FsCopyFile processingPath finalOutputPath)
                 (fun h => copyFile o h processingPath finalOutputPath)) in
       let tags := writableTags metadata (Types.comment metadata) in
       let* _ := external (ExiftoolWrite finalOutputPath tags)
                   (fun h => exiftool_write o h finalOutputPath tags) in
       let* _ :=
         (if processVideo && negb (String.eqb processingPath inputPath) then
            try_catch
              (external (FsUnlink processingPath)
                 (fun h => unlink o h processingPath))
              (fun _ => ret tt)
          else ret tt) in
       ret true)
    (fun error =>
       console_write ("Error processing video: " +:+ error) ;;;
       ret false).

Record BatchResults : Type := { success : nat; failed : nat; total : nat }.

(** The [for] loop of [batchProcess], for the member [this.addMetadata] it
    calls on each file. *)
Section Batch.
Variable process : string -> option string -> Types.RayBanConfig -> IO bool.

Definition batch_step (outputDir : option string) (config : Types.RayBanConfig)
  (results : BatchResults) (videoFile : Types.VideoFile) : IO BatchResults :=
  try_catch
    (let outputPath :=
       if JS.truthy outputDir
       then Some (path.join [default "" outputDir;
                             "rayban_" +:+ Types.name videoFile])
       else None in
     let* ok := process (Types.path videoFile) outputPath config in
     if ok then
       console_write ("✅ Processed: " +:+ Types.name videoFile) ;;;
       ret {| success := Datatypes.S (success results);
              failed := failed results; total := total results |}
     else
       console_write ("❌ Failed: " +:+ Types.name videoFile) ;;;
       ret {| success := success results;
              failed := Datatypes.S (failed results); total := total results |})
    (fun error =>
       console_write ("❌ Error processing " +:+ Types.name videoFile +:+ ": "
                      +:+ error) ;;;
       ret {| success := success results;
              failed := Datatypes.S (failed results); total := total results |}).

Fixpoint batch_loop (outputDir : option string) (config : Types.RayBanConfig)
  (videoFiles : list Types.VideoFile) (results : BatchResults)
  : IO BatchResults :=
  match videoFiles with
  | [] => ret results
  | videoFile :: rest =>
      let* results' := batch_step outputDir config results videoFile in
      batch_loop outputDir config rest results'
  end.

Definition batchProcess_with (directory : string) (outputDir : option string)
  (config : Types.RayBanConfig) : IO BatchResults :=
  let* videoFiles := getVideoFiles directory in
  batch_loop outputDir config videoFiles
    {| success := 0; failed := 0; total := List.length videoFiles |}.

End Batch.

(** [batchProcess], lines 135-165. *)
Definition batchProcess (directory : string) (outputDir : option string)
  (config : Types.RayBanConfig) : IO BatchResults :=
  batchProcess_with
    (fun inputPath outputPath config => addMetadata inputPath outputPath config false)
    directory outputDir config.

(** [verifyMetadata], lines 167-180. *)
Definition verifyMetadata (filePath : string) : IO bool :=
  try_catch
    (let* tags := external (ExiftoolRead filePath)
                    (fun h => exiftool_read o h filePath) in
     lift (every (verify_tag tags) requiredTags))
    (fun _ => ret false).

(** [mergeVideos], lines 283-324. *)
Definition mergeVideos (inputPaths : list string) (outputPath : string)
  (config : Types.RayBanConfig) : IO bool :=
  try_catch
    (let* ok := FFmpegProcessor.mergeVideos o inputPaths outputPath config in
     if ok then
       let* now := read_clock o in
       let metadata := MetadataGenerator.generateMetadata now config in
       let tags :=
         writableTags metadata
           (Types.comment metadata +:+ " - Merged from " +:+
            JS.string_of_nat (List.length inputPaths) +:+ " clips") in
       let* _ := external (ExiftoolWrite outputPath tags)
                   (fun h => exiftool_write o h outputPath tags) in
       ret ok
     else ret ok)
    (fun error =>
       console_write ("Error merging videos: " +:+ error) ;;;
       ret false).

(** [processAndAddMetadata], lines 192-200. *)
Definition processAndAddMetadata (inputPath : string)
  (outputPath : option string) (config : Types.RayBanConfig) : IO bool :=
  addMetadata inputPath outputPath config true.

(** [optimizeForRayBan], lines 205-248. *)
Definition optimizeForRayBan (inputPath : string) (outputPath : option string)
  (config : Types.RayBanConfig) : IO bool :=
  try_catch
    (let finalOutputPath :=
       JS.or_else outputPath
         (generateOutputPath inputPath (Types.frontCamera config)
            (Some "optimized")) in
     let* ok := FFmpegProcessor.optimizeForRayBan o inputPath finalOutputPath
                  config in
     if ok then
       let* now := read_clock o in
       let metadata := MetadataGenerator.generateMetadata now config in
       let tags := writableTags metadata (Types.comment metadata) in
       let* _ := external (ExiftoolWrite finalOutputPath tags)
                   (fun h => exiftool_write o h finalOutputPath tags) in
       ret ok
     else ret ok)
    (fun error =>
       console_write ("Error optimizing video: " +:+ error) ;;;
       ret false).

End WithOracle.

(** The output path [createThumbnail] hands to the transcoder, lines 259-260:
    [outputPath || inputPath.replace(path.extname(inputPath), '_thumb.jpg')]. *)
Definition thumbnailPath (inputPath : string) (outputPath : option string)
  : string :=
  JS.or_else outputPath
    (JS.replace (path.extname inputPath) "_thumb.jpg" inputPath).

(** The directory [extractFrames] hands to the transcoder, lines 274-275. *)
Definition framesDir (inputPath : string) (outputDir : option string)
  : string :=
  JS.or_else outputDir
    (path.join [path.dirname inputPath;
                path.basename inputPath (Some (path.extname inputPath))
                +:+ "_frames"]).

End VideoProcessor.

(* ================================================================== *)
(** ** The specification's wording, as definitions to compare with *)
(* ================================================================== *)

Module Spec.
Import Types.

(** "the camera-type preset": the front camera's preset when [frontCamera]
    is true, the main camera's when it is false or absent. *)
Definition camera_preset (config : RayBanConfig) : Constants.CameraPreset :=
  if default false (frontCamera config)
  then Constants.FRONT_CAMERA else Constants.MAIN_CAMERA.

(** The three GPS fields of a resolved record. *)
Definition gps (m : RayBanMetadataOptions)
  : option string * option string * option string :=
  (gpsLatitude m, gpsLongitude m, gpsAltitude m).

Definition gps_of_location (l : Constants.Location)
  : option string * option string * option string :=
  (Some (Constants.lat l), Some (Constants.lon l), Some (Constants.alt l)).

Definition new_york : Constants.Location :=
  {| Constants.lat := "40.7128"; Constants.lon := "-74.0060";
     Constants.alt := "10" |}.

Definition san_francisco : Constants.Location :=
  {| Constants.lat := "37.7749"; Constants.lon := "-122.4194";
     Constants.alt := "5" |}.

(** "front camera resolves to the new-york preset and main camera to the
    san-francisco preset". *)
Definition camera_default (config : RayBanConfig) : Constants.Location :=
  if default false (frontCamera config) then new_york else san_francisco.

(** "the named location is found in the location preset table". *)
Definition named_preset (config : RayBanConfig) : option Constants.Location :=
  match locationName config with
  | Some n => Constants.LOCATIONS !! n
  | None => None
  end.

(** The precedence as the specification words it, a coordinate being
    "supplied" when the configuration has it. *)
Definition claimed_gps (config : RayBanConfig)
  : option string * option string * option string :=
  match latitude config, longitude config with
  | Some la, Some lo => (Some la, Some lo, Some (default "5" (altitude config)))
  | _, _ =>
      match named_preset config with
      | Some l => gps_of_location l
      | None => gps_of_location (camera_default config)
      end
  end.

(** The same precedence with "supplied" read as "supplied and non-empty". *)
Definition amended_gps (config : RayBanConfig)
  : option string * option string * option string :=
  if JS.truthy (latitude config) && JS.truthy (longitude config) then
    (latitude config, longitude config, Some (JS.or_else (altitude config) "5"))
  else
    match named_preset config with
    | Some l => gps_of_location l
    | None => gps_of_location (camera_default config)
    end.

(** The location name is absent, or is not the name of a member of
    [Object.prototype]. *)
Definition regular_location_name (config : RayBanConfig) : bool :=
  match locationName config with
  | Some n => negb (JS.is_prototype_key n)
  | None => true
  end.


Definition is_digit (c : ascii) : bool :=
  let n := nat_of_ascii c in (48 <=? n)%nat && (n <=? 57)%nat.

(** [s] has the shape [pat], where a [d] of [pat] stands for a decimal digit
    and every other character for itself. *)
Fixpoint has_shape (pat s : string) : bool :=
  match pat, s with
  | EmptyString, EmptyString => true
  | String p pat', String c s' =>
      (if Ascii.eqb p "d" then is_digit c else Ascii.eqb p c)
      && has_shape pat' s'
  | _, _ => false
  end.

(** "the fixed lexical format YYYY:MM:DD HH:MM:SS". *)
Definition claimed_date_format (s : string) : bool :=
  has_shape "dddd:dd:dd dd:dd:dd" s.

(** A longitude written without a minus sign lies east of Greenwich. *)
Definition eastern (lon : string) : bool :=
  path.nonempty lon && negb (String.prefix "-" lon).

(** "(all four fields truthy AND contain 'Ray-Ban') OR (last field contains
    'Meta')". *)
Definition claimed_verify (tags : gmap string string) : bool :=
  forallb
    (fun tag =>
       match tags !! tag with
       | Some s => path.nonempty s && JS.includes "Ray-Ban" s
       | None => false
       end)
    VideoProcessor.requiredTags
  || match tags !! "LensModel" with
     | Some s => JS.includes "Meta" s
     | None => false
     end.

(** "each field contains either brand marker". *)
Definition has_brand_marker (tags : gmap string string) (tag : string) : Prop :=
  exists s, tags !! tag = Some s /\
            (JS.includes "Ray-Ban" s = true \/ JS.includes "Meta" s = true).

(** [s] has no separator in it. *)
Fixpoint no_slash (s : string) : bool :=
  match s with
  | EmptyString => true
  | String c s' => negb (path.is_slash c) && no_slash s'
  end.

(** A file name proper: not empty, not ['.'], not ['..'], no separator. *)
Definition file_name (s : string) : bool :=
  path.nonempty s && negb (String.eqb s ".") && negb (String.eqb s "..")
  && no_slash s.

(** The file name of a default output path:
    [<basename>_rayban[_front][_<operation>]<ext>]. *)
Definition output_file_name (inputPath : string) (frontCamera : option bool)
  (operation : option string) : string :=
  path.basename inputPath (Some (path.extname inputPath))
  +:+ "_rayban"
  +:+ (if default false frontCamera then "_front" else "")
  +:+ (if JS.truthy operation then "_" +:+ default "" operation else "")
  +:+ path.extname inputPath.

(** "extension in the allow-list": the extension of the path, in lower
    case, is one of the six. *)
Definition allowed_extension (p : string) : bool :=
  existsb (String.eqb (JS.toLowerCase (path.extname p)))
    [".mp4"; ".mov"; ".avi"; ".mkv"; ".m4v"; ".webm"].

(** What [stat] answers for the entries of a listing, asked in the order of
    the listing, each after the calls [h] made before it; [None] when one
    of the answers is a failure. *)
Fixpoint stat_answers (o : IO.Oracle) (directory : string)
  (files : list string) (h : list IO.Call) : option (list IO.Stats) :=
  match files with
  | [] => Some []
  | file :: rest =>
      match IO.stat o h (path.join [directory; file]) with
      | IO.Ok st =>
          option_map (cons st)
            (stat_answers o directory rest
               (IO.FsStat (path.join [directory; file]) :: h))
      | IO.Throw _ => None
      end
  end.

(** "recognized video files (extension in the allow-list, regular files
    only, non-recursive)": the direct entries of the directory that are
    regular files and have an allowed extension, every one of them, in the
    order of the listing, [stats] being what [stat] says of the entries. *)
Fixpoint recognized_files (directory : string) (files : list string)
  (stats : list IO.Stats) : list VideoFile :=
  match files, stats with
  | file :: files', st :: stats' =>
      if IO.isFile st && allowed_extension (path.join [directory; file])
      then {| path := path.join [directory; file]; name := file;
              size := IO.size st; extension := path.extname file |}
           :: recognized_files directory files' stats'
      else recognized_files directory files' stats'
  | _, _ => []
  end.

(** The calls of a non-recursive enumeration, most recent first: one
    listing of the directory, then one [stat] for each of its entries. *)
Definition enumeration_calls (directory : string) (files : list string)
  : list IO.Call :=
  List.rev (map (fun file => IO.FsStat (path.join [directory; file])) files)
  ++ [IO.FsReaddir directory].

(** What a batch attempts: [process] run on every file in turn, each in the
    world the one before it left, whatever the outcomes.  The console line
    the loop prints after a file is part of that world. *)
Definition batch_output (outputDir : option string) (videoFile : VideoFile)
  : option string :=
  if JS.truthy outputDir
  then Some (path.join [default "" outputDir; "rayban_" +:+ name videoFile])
  else None.

Definition batch_line (videoFile : VideoFile) (r : IO.Result bool) : string :=
  match r with
  | IO.Ok true => "✅ Processed: " +:+ name videoFile
  | IO.Ok false => "❌ Failed: " +:+ name videoFile
  | IO.Throw e => "❌ Error processing " +:+ name videoFile +:+ ": " +:+ e
  end.

Fixpoint attempts
  (process : string -> option string -> RayBanConfig -> IO.IO bool)
  (outputDir : option string) (config : RayBanConfig)
  (videoFiles : list VideoFile) (w : IO.World)
  : list (IO.Result bool) * IO.World :=
  match videoFiles with
  | [] => ([], w)
  | videoFile :: rest =>
      let (r, w1) := process (path videoFile) (batch_output outputDir videoFile)
                       config w in
      let w2 := IO.mkWorld (IO.calls w1) (batch_line videoFile r :: IO.console w1) in
      let (rs, w3) := attempts process outputDir config rest w2 in
      (r :: rs, w3)
  end.

Definition succeeded (r : IO.Result bool) : bool :=
  match r with
  | IO.Ok true => true
  | _ => false
  end.

Definition count_succeeded (rs : list (IO.Result bool)) : nat :=
  List.length (List.filter succeeded rs).

Definition count_failed (rs : list (IO.Result bool)) : nat :=
  List.length (List.filter (fun r => negb (succeeded r)) rs).

End Spec.

(* ================================================================== *)
(** ** Notions used to state what the operations do to the world *)
(* ================================================================== *)

Module Effects.



(** The call [c] only reads. *)
Definition read_only (c : IO.Call) : bool :=
  match c with
  | IO.FsReaddir _ | IO.FsStat _ | IO.ExiftoolRead _ => true
  | _ => false
  end.

(** A tag set that has the four required tags as the record [t] holds
    them. *)
Definition carries (tags : gmap string string) (t : IO.WritableTags) : Prop :=
  tags !! "Make" = Some (IO.Make t)
  /\ tags !! "Model" = Some (IO.Model t)
  /\ tags !! "Software" = Some (IO.Software t)
  /\ tags !! "LensModel" = Some (IO.LensModel t).

Fixpoint no_char (x : ascii) (s : string) : bool :=
  match s with
  | EmptyString => true
  | String c s' => negb (Ascii.eqb c x) && no_char x s'
  end.



(** The file name of a temporary path:
    [<basename>_<suffix>_<timestamp><ext>]. *)
Definition temp_file_name (inputPath suffix : string) (timestamp : N)
  : string :=
  path.basename inputPath (Some (path.extname inputPath))
  +:+ "_" +:+ suffix +:+ "_" +:+ JS.string_of_N timestamp
  +:+ path.extname inputPath.

(** The comment [mergeVideos] writes: the record's comment and the number
    of clips. *)
Definition merged_comment (metadata : Types.RayBanMetadataOptions)
  (clips : nat) : string :=
  Types.comment metadata +:+ " - Merged from " +:+ JS.string_of_nat clips
  +:+ " clips".

(** Every call that [m] adds to the world satisfies [P]. *)
Definition only_calls {A} (P : IO.Call -> bool) (m : IO.IO A) : Prop :=
  forall w, exists new,
    IO.calls (snd (m w)) = new ++ IO.calls w
    /\ Forall (fun c => P c = true) new.

(** Two records that agree on every field but the two timestamps. *)
Definition same_but_dates (m m' : Types.RayBanMetadataOptions) : Prop :=
  m' = {| Types.make := Types.make m; Types.model := Types.model m;
          Types.software := Types.software m;
          Types.lensModel := Types.lensModel m;
          Types.createDate := Types.createDate m';
          Types.modifyDate := Types.modifyDate m';
          Types.cameraModelName := Types.cameraModelName m;
          Types.deviceType := Types.deviceType m;
          Types.captureMode := Types.captureMode m;
          Types.audioChannels := Types.audioChannels m;
          Types.microphone := Types.microphone m;
          Types.fieldOfView := Types.fieldOfView m;
          Types.imageStabilization := Types.imageStabilization m;
          Types.comment := Types.comment m;
          Types.gpsLatitude := Types.gpsLatitude m;
          Types.gpsLongitude := Types.gpsLongitude m;
          Types.gpsAltitude := Types.gpsAltitude m;
          Types.gpsLatitudeRef := Types.gpsLatitudeRef m;
          Types.gpsLongitudeRef := Types.gpsLongitudeRef m |}.

End Effects.

(* ================================================================== *)
(** ** Concrete inputs used in the examples *)
(* ================================================================== *)

Module Samples.
Import Types.

(** 15 January 2024, 14:30:00.000 UTC. *)
Definition noon : JS.Date := JS.mkDate 2024 0 15 14 30 0 0.

Definition with_location (n : string) : RayBanConfig := {|
  frontCamera := None; hasAudio := None; customDate := None;
  latitude := None; longitude := None; altitude := None;
  locationName := Some n; customComment := None
|}.

(** [{frontCamera: true, hasAudio: false, locationName: 'tokyo'}]. *)
Definition tokyo_front_muted : RayBanConfig := {|
  frontCamera := Some true; hasAudio := Some false; customDate := None;
  latitude := None; longitude := None; altitude := None;
  locationName := Some "tokyo"; customComment := None
|}.

(** [{latitude: '', longitude: '10.5'}]. *)
Definition empty_latitude : RayBanConfig := {|
  frontCamera := None; hasAudio := None; customDate := None;
  latitude := Some ""; longitude := Some "10.5"; altitude := None;
  locationName := None; customComment := None
|}.


(** [{latitude: '52.52', longitude: '13.405'}]. *)
Definition berlin : RayBanConfig := {|
  frontCamera := None; hasAudio := None; customDate := None;
  latitude := Some "52.52"; longitude := Some "13.405"; altitude := None;
  locationName := None; customComment := None
|}.

(** [{latitude: '52.52', longitude: '13.405', locationName: 'constructor'}]. *)
Definition berlin_constructor : RayBanConfig := {|
  frontCamera := None; hasAudio := None; customDate := None;
  latitude := Some "52.52"; longitude := Some "13.405"; altitude := None;
  locationName := Some "constructor"; customComment := None
|}.

(** [{customDate: ''}]. *)
Definition empty_date : RayBanConfig := {|
  frontCamera := None; hasAudio := None; customDate := Some "";
  latitude := None; longitude := None; altitude := None;
  locationName := None; customComment := None
|}.

(** [{customDate: '2024:01:15 14:30:00', frontCamera: true}]. *)
Definition dated : RayBanConfig := {|
  frontCamera := Some true; hasAudio := None;
  customDate := Some "2024:01:15 14:30:00";
  latitude := None; longitude := None; altitude := None;
  locationName := None; customComment := None
|}.

(** 1 March 2031, 08:05:09.250 UTC. *)
Definition later : JS.Date := JS.mkDate 2031 2 1 8 5 9 250.

(** An outside world: one directory listing, some entries of it being
    directories, some paths exiftool cannot write, one tag set for every
    file. *)
Definition named (names : list string) (p : string) : bool :=
  existsb (String.eqb p) names.

Definition oracle (listing directories unwritable : list string)
  (tags : gmap string string) : IO.Oracle := {|
  IO.readdir := fun _ _ => IO.Ok listing;
  IO.stat := fun _ p =>
    IO.Ok {| IO.isFile := negb (named directories p); IO.size := 1024 |};
  IO.copyFile := fun _ _ _ => IO.Ok tt;
  IO.unlink := fun _ _ => IO.Ok tt;
  IO.exiftool_read := fun _ _ => IO.Ok tags;
  IO.exiftool_write := fun _ p _ =>
    if named unwritable p then IO.Throw "exiftool: cannot write"
    else IO.Ok tt;
  IO.ffmpeg_run := fun _ _ => IO.Ok tt;
  IO.clock := fun _ => noon;
  IO.clock_ms := fun _ => 1705329000000%N
|}.

(** The same outside world, where nothing can be deleted. *)
Definition undeletable (listing directories unwritable : list string)
  (tags : gmap string string) : IO.Oracle := {|
  IO.readdir := IO.readdir (oracle listing directories unwritable tags);
  IO.stat := IO.stat (oracle listing directories unwritable tags);
  IO.copyFile := IO.copyFile (oracle listing directories unwritable tags);
  IO.unlink := fun _ _ => IO.Throw "EPERM: operation not permitted";
  IO.exiftool_read :=
    IO.exiftool_read (oracle listing directories unwritable tags);
  IO.exiftool_write :=
    IO.exiftool_write (oracle listing directories unwritable tags);
  IO.ffmpeg_run := IO.ffmpeg_run (oracle listing directories unwritable tags);
  IO.clock := IO.clock (oracle listing directories unwritable tags);
  IO.clock_ms := IO.clock_ms (oracle listing directories unwritable tags)
|}.

(** An outside world whose transcoder always fails. *)
Definition failing_transcoder (message : string) : IO.Oracle := {|
  IO.readdir := fun _ _ => IO.Ok [];
  IO.stat := fun _ _ => IO.Ok {| IO.isFile := true; IO.size := 1024 |};
  IO.copyFile := fun _ _ _ => IO.Ok tt;
  IO.unlink := fun _ _ => IO.Ok tt;
  IO.exiftool_read := fun _ _ => IO.Throw "exiftool: cannot read";
  IO.exiftool_write := fun _ _ _ => IO.Ok tt;
  IO.ffmpeg_run := fun _ _ => IO.Throw message;
  IO.clock := fun _ => noon;
  IO.clock_ms := fun _ => 1705329000000%N
|}.

Definition quiet : IO.World := IO.mkWorld [] [].

(** The four tags as [addMetadata] writes them for the main camera. *)
Definition main_camera_tags : gmap string string :=
  list_to_map
    [ ("Make", "Meta"); ("Model", "Ray-Ban Meta");
      ("Software", "Meta Camera v3.0.1");
      ("LensModel", "Ray-Ban Stories Wide Angle 12mm f/1.8") ].

(** A file that only has a lens tag. *)
Definition lens_only_tags : gmap string string :=
  list_to_map [ ("LensModel", "Meta lens") ].

(** A directory with an entry that cannot be examined. *)
Definition broken_link (listing : list string) (broken : string)
  : IO.Oracle := {|
  IO.readdir := fun _ _ => IO.Ok listing;
  IO.stat := fun _ p =>
    if String.eqb p broken
    then IO.Throw "ENOENT: no such file or directory"
    else IO.Ok {| IO.isFile := true; IO.size := 1024 |};
  IO.copyFile := fun _ _ _ => IO.Ok tt;
  IO.unlink := fun _ _ => IO.Ok tt;
  IO.exiftool_read := fun _ _ => IO.Ok main_camera_tags;
  IO.exiftool_write := fun _ _ _ => IO.Ok tt;
  IO.ffmpeg_run := fun _ _ => IO.Ok tt;
  IO.clock := fun _ => noon;
  IO.clock_ms := fun _ => 1705329000000%N
|}.

(** [videos/] holds three videos, a text file and a directory named like a
    video; exiftool cannot write the second video's output. *)
Definition videos_oracle : IO.Oracle :=
  oracle ["a.mp4"; "notes.txt"; "b.MOV"; "sub.mp4"; "c.mkv"]
         ["videos/sub.mp4"] ["videos/b_rayban.MOV"] main_camera_tags.

End Samples.

(* ================================================================== *)
(** ** Facts about strings *)
(* ================================================================== *)

Section Strings.

Lemma append_cons (x : ascii) (a b : string) :
  String x a +:+ b = String x (a +:+ b).
Proof. reflexivity. Qed.

Lemma append_empty_l (a : string) : "" +:+ a = a.
Proof. reflexivity. Qed.

Lemma append_assoc (a b c : string) : (a +:+ b) +:+ c = a +:+ (b +:+ c).
Proof.
  induction a as [|x a IH]; [reflexivity|].
  rewrite !append_cons. f_equal. exact IH.
Qed.

Lemma append_empty_r (a : string) : a +:+ "" = a.
Proof.
  induction a as [|x a IH]; [reflexivity|].
  rewrite append_cons. f_equal. exact IH.
Qed.

Lemma length_append (a b : string) :
  String.length (a +:+ b) = String.length a + String.length b.
Proof.
  induction a as [|x a IH]; [reflexivity|].
  rewrite append_cons. cbn. now rewrite IH.
Qed.

End Strings.

(* ================================================================== *)
(** ** Properties of the metadata resolver *)
(* ================================================================== *)

Section Resolver.
Import Types.

Lemma get_new_york :
  JS.get Constants.LOCATIONS "new-york" = JS.Own Spec.new_york.
Proof. vm_compute. reflexivity. Qed.

Lemma get_san_francisco :
  JS.get Constants.LOCATIONS "san-francisco" = JS.Own Spec.san_francisco.
Proof. vm_compute. reflexivity. Qed.

Lemma lookup_empty_name : Constants.LOCATIONS !! "" = None.
Proof. vm_compute. reflexivity. Qed.

(** The own keys of the table are the six names of the literal. *)
Lemma LOCATIONS_own_keys (n : string) (l : Constants.Location) :
  Constants.LOCATIONS !! n = Some l <-> In (n, l) Constants.LOCATIONS_entries.
Proof.
  unfold Constants.LOCATIONS.
  rewrite <- list_elem_of_In.
  split.
  - apply elem_of_list_to_map_2.
  - apply elem_of_list_to_map_1.
    apply (bool_decide_unpack _). vm_compute. exact I.
Qed.

(** The camera-default location is always an entry of the table. *)
Lemma default_location (config : RayBanConfig) :
  (if default false (frontCamera config)
   then JS.get Constants.LOCATIONS "new-york"
   else JS.get Constants.LOCATIONS "san-francisco")
  = JS.Own (Spec.camera_default config).
Proof.
  unfold Spec.camera_default.
  destruct (default false (frontCamera config));
    [apply get_new_york | apply get_san_francisco].
Qed.

(** What the two last branches of the conditional give, by the kind of the
    value [LOCATIONS[locationName]]. *)
Lemma named_or_default (config : RayBanConfig) :
  JS.truthy (latitude config) && JS.truthy (longitude config) = false ->
  MetadataGenerator.resolve_location config =
  match locationName config with
  | Some (String _ _ as n) =>
      match JS.get Constants.LOCATIONS n with
      | JS.Undefined => JS.Own (Spec.camera_default config)
      | v => v
      end
  | _ => JS.Own (Spec.camera_default config)
  end.
Proof.
  intros Hskip. unfold MetadataGenerator.resolve_location.
  rewrite Hskip, default_location.
  destruct (locationName config) as [[|c n]|]; try reflexivity.
  cbn [JS.truthy andb default from_option id].
  destruct (JS.get Constants.LOCATIONS (String c n)); reflexivity.
Qed.

(** The variable [location] never holds [undefined], so reading its fields
    cannot throw. *)
Lemma resolve_location_defined (config : RayBanConfig) :
  MetadataGenerator.resolve_location config <> JS.Undefined.
Proof.
  destruct (JS.truthy (latitude config) && JS.truthy (longitude config)) eqn:Hb.
  - unfold MetadataGenerator.resolve_location. rewrite Hb. discriminate.
  - rewrite named_or_default by exact Hb.
    destruct (locationName config) as [[|c n]|]; try discriminate.
    destruct (JS.get Constants.LOCATIONS (String c n)); discriminate.
Qed.

Example scenario_tokyo :
  let m := MetadataGenerator.generateMetadata Samples.noon
             Samples.tokyo_front_muted in
  (Types.audioChannels m, Types.microphone m, Types.gpsLatitude m,
   Types.gpsLongitude m, Types.gpsAltitude m, Types.make m, Types.model m,
   Types.createDate m)
  = (0, "None", Some "35.6762", Some "139.6503", Some "20", "Meta",
     "Ray-Ban Stories", "2024-01-15 14:30:00").
Proof. vm_compute. reflexivity. Qed.

(** C2, the claim as worded fails.  With an empty latitude both coordinates
    are supplied, yet the record carries the main camera's default location
    and not the supplied values; and the location name [constructor], which
    is not in the preset table, leaves the three GPS fields undefined instead
    of the camera default. *)
Lemma gps_precedence_counterexample :
  Spec.gps (MetadataGenerator.generateMetadata Samples.noon Samples.empty_latitude)
    = (Some "37.7749", Some "-122.4194", Some "5")
  /\ Spec.claimed_gps Samples.empty_latitude = (Some "", Some "10.5", Some "5")
  /\ Spec.gps (MetadataGenerator.generateMetadata Samples.noon
                 (Samples.with_location "constructor"))
    = (None, None, None)
  /\ Spec.claimed_gps (Samples.with_location "constructor")
    = (Some "37.7749", Some "-122.4194", Some "5").
Proof. vm_compute. repeat split; reflexivity. Qed.

(** C2, amended.  For every configuration in which latitude and longitude
    are both supplied and non-empty, or whose location name is absent or is
    not the name of a member of [Object.prototype], the GPS fields follow
    this precedence: (1) when latitude and longitude are both supplied and
    non-empty they are used verbatim, whatever the location name, and the
    altitude is ['5'] when it is absent or empty; (2) otherwise, when the
    location name is a key of the preset table, that preset's fields are
    used verbatim; (3) otherwise the camera default is used, new-york for
    the front camera and san-francisco for the main one. *)
Theorem gps_precedence (now : JS.Date) (config : RayBanConfig) :
  JS.truthy (latitude config) && JS.truthy (longitude config) = true
  \/ Spec.regular_location_name config = true ->
  Spec.gps (MetadataGenerator.generateMetadata now config)
  = Spec.amended_gps config.
Proof.
  intros Hreg.
  unfold Spec.gps, Spec.amended_gps, MetadataGenerator.generateMetadata; cbn.
  destruct (JS.truthy (latitude config) && JS.truthy (longitude config)) eqn:Hb.
  - unfold MetadataGenerator.resolve_location. rewrite Hb.
    destruct (latitude config) as [[|c1 s1]|]; destruct (longitude config) as [[|c2 s2]|];
      try discriminate Hb. reflexivity.
  - destruct Hreg as [Hboth|Hreg]; [discriminate Hboth|].
    rewrite named_or_default by exact Hb.
    unfold Spec.regular_location_name, Spec.named_preset in *.
    destruct (locationName config) as [[|c n]|];
      [rewrite lookup_empty_name; reflexivity | | reflexivity].
    unfold JS.get.
    destruct (Constants.LOCATIONS !! String c n) as [l|]; [reflexivity|].
    apply negb_true_iff in Hreg. rewrite Hreg. reflexivity.
Qed.

Lemma gps_precedence_witness :
  (JS.truthy (latitude Samples.berlin_constructor)
   && JS.truthy (longitude Samples.berlin_constructor) = true
   \/ Spec.regular_location_name Samples.berlin_constructor = true)
  /\ Spec.regular_location_name Samples.berlin_constructor = false
  /\ Spec.gps (MetadataGenerator.generateMetadata Samples.noon
                 Samples.berlin_constructor)
     = (Some "52.52", Some "13.405", Some "5").
Proof.
  split; [left; reflexivity|]. split; [reflexivity|].
  rewrite (gps_precedence Samples.noon Samples.berlin_constructor
             (or_introl eq_refl)).
  reflexivity.
Defined.

(** The named branch of the precedence, under the front camera. *)
Example gps_precedence_named :
  Spec.gps (MetadataGenerator.generateMetadata Samples.noon
              Samples.tokyo_front_muted)
  = (Some "35.6762", Some "139.6503", Some "20").
Proof. vm_compute. reflexivity. Qed.

(** C3, the claim as worded fails.  The custom date [''] is supplied and
    does not appear in the record; the timestamp that takes its place is the
    ISO text with dashes in its date part, not [YYYY:MM:DD HH:MM:SS]. *)
Lemma timestamps_counterexample :
  customDate Samples.empty_date = Some ""
  /\ createDate (MetadataGenerator.generateMetadata Samples.noon Samples.empty_date)
     = "2024-01-15 14:30:00"
  /\ Spec.claimed_date_format
       (createDate (MetadataGenerator.generateMetadata Samples.noon
                      Samples.empty_date))
     = false.
Proof. vm_compute. repeat split; reflexivity. Qed.

(** C3, amended.  For every configuration: a custom date that is supplied
    and non-empty appears verbatim, with no validation, in both [createDate]
    and [modifyDate]; when the custom date is absent or empty the two
    timestamp fields are still identical to each other. *)
Theorem timestamps (now : JS.Date) (config : RayBanConfig) :
  match customDate config with
  | Some (String c s) =>
      createDate (MetadataGenerator.generateMetadata now config) = String c s
      /\ modifyDate (MetadataGenerator.generateMetadata now config) = String c s
  | _ =>
      createDate (MetadataGenerator.generateMetadata now config)
      = modifyDate (MetadataGenerator.generateMetadata now config)
  end.
Proof.
  unfold MetadataGenerator.generateMetadata, MetadataGenerator.resolve_date; cbn.
  destruct (customDate config) as [[|c s]|]; cbn; auto.
Qed.

(** C4.  With [hasAudio] false the record has [audioChannels = 0] and
    [microphone = 'None'], whatever the other fields of the configuration
    are; with [hasAudio] true or absent both fields are those of the preset
    of the camera type: 2 channels and the beamforming array for the front
    camera, 4 channels and the 5-microphone array for the main camera. *)
Theorem audio_fields (now : JS.Date) (config : RayBanConfig) :
  match hasAudio config with
  | Some false =>
      audioChannels (MetadataGenerator.generateMetadata now config) = 0
      /\ microphone (MetadataGenerator.generateMetadata now config) = "None"
  | _ =>
      audioChannels (MetadataGenerator.generateMetadata now config)
      = Constants.audioChannels (Spec.camera_preset config)
      /\ microphone (MetadataGenerator.generateMetadata now config)
         = Constants.microphone (Spec.camera_preset config)
      /\ (audioChannels (MetadataGenerator.generateMetadata now config),
          microphone (MetadataGenerator.generateMetadata now config))
         = match frontCamera config with
           | Some true => (2, "Beamforming Array")
           | _ => (4, "5-microphone array with noise cancellation")
           end
  end.
Proof.
  unfold MetadataGenerator.generateMetadata, MetadataGenerator.preset_of,
    Spec.camera_preset; cbn.
  destruct (hasAudio config) as [[|]|]; destruct (frontCamera config) as [[|]|];
    cbn; repeat split; reflexivity.
Qed.

(** The two presets' audio fields, for reference. *)
Lemma preset_audio (config : RayBanConfig) :
  (Constants.audioChannels (MetadataGenerator.preset_of config),
   Constants.microphone (MetadataGenerator.preset_of config))
  = if default false (frontCamera config)
    then (2, "Beamforming Array")
    else (4, "5-microphone array with noise cancellation").
Proof.
  unfold MetadataGenerator.preset_of.
  destruct (default false (frontCamera config)); reflexivity.
Qed.

(** C8.  The hemisphere letters of every resolved record are [N] and [W]:
    they come from the camera preset, and both presets carry these two.  So
    they contradict an eastern longitude: for the named locations tokyo
    (139.6503) and paris (2.3522), and for any non-empty explicit longitude
    without a minus sign, the record has that longitude next to [W]. *)
Theorem hemisphere_letters (now : JS.Date) (config : RayBanConfig) :
  (gpsLatitudeRef (MetadataGenerator.generateMetadata now config) = Constants.N
   /\ gpsLongitudeRef (MetadataGenerator.generateMetadata now config) = Constants.W)
  /\ (gpsLongitude (MetadataGenerator.generateMetadata now (Samples.with_location "tokyo"))
      = Some "139.6503"
      /\ gpsLongitude (MetadataGenerator.generateMetadata now (Samples.with_location "paris"))
         = Some "2.3522"
      /\ Spec.eastern "139.6503" = true /\ Spec.eastern "2.3522" = true)
  /\ match latitude config, longitude config with
     | Some (String _ _), Some (String c s) =>
         gpsLongitude (MetadataGenerator.generateMetadata now config)
         = Some (String c s)
     | _, _ => True
     end.
Proof.
  split; [|split].
  - unfold MetadataGenerator.generateMetadata, MetadataGenerator.preset_of; cbn.
    destruct (default false (frontCamera config)); split; reflexivity.
  - repeat split; vm_compute; reflexivity.
  - unfold MetadataGenerator.generateMetadata, MetadataGenerator.resolve_location; cbn.
    destruct (latitude config) as [[|c1 s1]|]; destruct (longitude config) as [[|c2 s2]|];
      try exact I; reflexivity.
Qed.

(** Explicit coordinates east of Greenwich, with the letter [W]. *)
Example berlin_west :
  (gpsLongitude (MetadataGenerator.generateMetadata Samples.noon Samples.berlin),
   gpsLongitudeRef (MetadataGenerator.generateMetadata Samples.noon Samples.berlin),
   Spec.eastern "13.405")
  = (Some "13.405", Constants.W, true).
Proof. vm_compute. reflexivity. Qed.



(** C10.  The comment override applies only when it is a non-empty string:
    with [customComment] absent or empty the record's comment is the default
    comment of the preset of the camera type, the front camera's text for
    the front camera and the main camera's text otherwise, and with a
    non-empty [customComment] it is that string exactly. *)
Theorem comment_override (now : JS.Date) (config : RayBanConfig) :
  comment (MetadataGenerator.generateMetadata now config)
  = match customComment config with
    | None | Some EmptyString =>
        Constants.defaultComment (Spec.camera_preset config)
    | Some override => override
    end
  /\ Constants.defaultComment (Spec.camera_preset config)
     = match frontCamera config with
       | Some true =>
           "Recorded on Meta Ray-Ban Smart Glasses - First-person perspective"
       | _ =>
           "Captured with Meta Ray-Ban Smart Glasses - Hands-free recording"
       end.
Proof.
  unfold MetadataGenerator.generateMetadata, MetadataGenerator.preset_of,
    Spec.camera_preset; cbn.
  destruct (frontCamera config) as [[|]|];
    destruct (customComment config) as [[|c s]|]; split; reflexivity.
Qed.

End Resolver.

(* ================================================================== *)
(** ** The default timestamp *)
(* ================================================================== *)

Section Timestamp.
Import Types.

Lemma digit_is_digit (n : nat) : Spec.is_digit (JS.digit n) = true.
Proof.
  unfold Spec.is_digit, JS.digit.
  assert (Hlt : n mod 10 < 10) by (apply Nat.mod_upper_bound; lia).
  rewrite nat_ascii_embedding by lia.
  apply andb_true_iff. split; [apply Nat.leb_le|apply Nat.leb_le]; lia.
Qed.

Lemma digit_not_T (n : nat) : JS.digit n <> "T"%char.
Proof.
  intros Heq. pose proof (digit_is_digit n) as Hd. rewrite Heq in Hd.
  discriminate Hd.
Qed.

Lemma digits_2 (n : nat) :
  JS.digits 2 n = String (JS.digit (n / 10)) (String (JS.digit n) "").
Proof. reflexivity. Qed.

Lemma digits_4 (n : nat) :
  JS.digits 4 n
  = String (JS.digit (n / 10 / 10 / 10))
      (String (JS.digit (n / 10 / 10))
         (String (JS.digit (n / 10)) (String (JS.digit n) ""))).
Proof. reflexivity. Qed.

(** [replace] steps over a character that does not start the pattern. *)
Lemma replace_skip (a c : ascii) (rep s : string) :
  c <> a ->
  JS.replace (String a "") rep (String c s)
  = String c (JS.replace (String a "") rep s).
Proof.
  intros Hne. cbn [JS.replace String.prefix].
  destruct (ascii_dec a c) as [Heq|_]; [congruence|reflexivity].
Qed.

Lemma replace_hit (a : ascii) (rep s : string) :
  JS.replace (String a "") rep (String a s) = rep +:+ s.
Proof.
  cbn [JS.replace String.prefix].
  destruct (ascii_dec a a) as [_|Hne]; [|congruence].
  destruct s; reflexivity.
Qed.

(** Without a usable custom date, and in the years 0 to 9999, the timestamp
    of the record is the UTC time written [YYYY-MM-DD HH:MM:SS]: the date
    part keeps the dashes of the ISO text. *)
Lemma default_timestamp_shape (now : JS.Date) (config : RayBanConfig) :
  JS.truthy (customDate config) = false ->
  (0 <= JS.utcFullYear now <= 9999)%Z ->
  Spec.has_shape "dddd-dd-dd dd:dd:dd"
    (createDate (MetadataGenerator.generateMetadata now config)) = true.
Proof.
  intros Hnone Hyear.
  unfold MetadataGenerator.generateMetadata, MetadataGenerator.resolve_date.
  cbn [createDate].
  assert (Hdate : JS.or_else (customDate config)
                    (JS.substring 0 19 (JS.replace "T" " " (JS.toISOString now)))
                  = JS.substring 0 19 (JS.replace "T" " " (JS.toISOString now))).
  { destruct (customDate config) as [[|c s]|]; [reflexivity|discriminate|reflexivity]. }
  rewrite Hdate. clear Hdate Hnone.
  unfold JS.toISOString, JS.iso_year.
  destruct (Z.leb_spec 0 (JS.utcFullYear now)) as [_|Hneg]; [|lia].
  destruct (Z.leb_spec (JS.utcFullYear now) 9999) as [_|Hbig]; [|lia].
  cbn [andb]. rewrite digits_4, !digits_2.
  rewrite !append_cons, !append_empty_l.
  repeat (rewrite replace_skip by (apply digit_not_T || discriminate)).
  rewrite replace_hit.
  rewrite !append_cons, !append_empty_l.
  unfold JS.substring. cbn [Nat.min Nat.max Nat.sub String.substring].
  cbn [Spec.has_shape Ascii.eqb Bool.eqb andb].
  rewrite !digit_is_digit. reflexivity.
Qed.

End Timestamp.

(* ================================================================== *)
(** ** Properties of the verifier and of the merge operation *)
(* ================================================================== *)

Section Verifier.
Import IO.

(** One field passes the callback exactly when it is present and contains
    one of the two markers. *)
Lemma verify_tag_true (tags : gmap string string) (tag : string) :
  VideoProcessor.verify_tag tags tag = Ok true <-> Spec.has_brand_marker tags tag.
Proof.
  unfold VideoProcessor.verify_tag, Spec.has_brand_marker, JS.get.
  destruct (tags !! tag) as [s|] eqn:Hs.
  - destruct s as [|c s].
    + cbn. split; [discriminate|].
      intros (s' & [= <-] & [H|H]); discriminate H.
    + cbn [path.nonempty andb].
      destruct (JS.includes "Ray-Ban" (String c s)) eqn:Hrb.
      * split; [|reflexivity]. intros _. exists (String c s). auto.
      * split.
        -- intros [= Hm]. exists (String c s). auto.
        -- intros (s' & [= <-] & [H|H]); congruence.
  - split.
    + destruct (JS.is_prototype_key tag); discriminate.
    + intros (s' & [=] & _).
Qed.

Lemma every_true {A} (f : A -> Result bool) (l : list A) :
  VideoProcessor.every f l = Ok true <-> (forall x, In x l -> f x = Ok true).
Proof.
  induction l as [|x l IH]; cbn.
  - split; [intros _ y []|reflexivity].
  - destruct (f x) as [[|]|e] eqn:Hx.
    + rewrite IH. split.
      * intros H y [<-|Hy]; auto.
      * intros H y Hy. apply H. auto.
    + split; [discriminate|]. intros H. rewrite <- Hx. apply H. auto.
    + split; [discriminate|]. intros H. rewrite <- Hx. apply H. auto.
Qed.

Lemma all_fields_pass (tags : gmap string string) :
  (forall tag, In tag VideoProcessor.requiredTags ->
               Spec.has_brand_marker tags tag) ->
  VideoProcessor.every (VideoProcessor.verify_tag tags)
    VideoProcessor.requiredTags = Ok true.
Proof.
  intros Hall. apply every_true. intros tag Htag.
  apply verify_tag_true. auto.
Qed.

(** The answer of [verifyMetadata], by the outcome of the read and of the
    test: an exception on either side is caught and becomes [false]. *)
Lemma verifyMetadata_result (o : Oracle) (filePath : string) (w : World) :
  fst (VideoProcessor.verifyMetadata o filePath w)
  = match exiftool_read o (calls w) filePath with
    | Ok tags =>
        match VideoProcessor.every (VideoProcessor.verify_tag tags)
                VideoProcessor.requiredTags with
        | Ok b => Ok b
        | Throw _ => Ok false
        end
    | Throw _ => Ok false
    end.
Proof.
  unfold VideoProcessor.verifyMetadata, try_catch, bind, external,
    VideoProcessor.lift, ret.
  destruct (exiftool_read o (calls w) filePath) as [tags|e]; [|reflexivity].
  destruct (VideoProcessor.every (VideoProcessor.verify_tag tags)
              VideoProcessor.requiredTags); reflexivity.
Qed.

(** C1, the claim as worded fails.  On the four tags the tool itself writes
    the predicate is true, although [Make] has no ['Ray-Ban'] and the last
    field no ['Meta']; on a file with only a [LensModel] tag that contains
    ['Meta'] it is false. *)
Lemma verify_counterexample :
  fst (VideoProcessor.verifyMetadata
         (Samples.oracle [] [] [] Samples.main_camera_tags) "clip.mp4"
         Samples.quiet) = Ok true
  /\ Spec.claimed_verify Samples.main_camera_tags = false
  /\ fst (VideoProcessor.verifyMetadata
            (Samples.oracle [] [] [] Samples.lens_only_tags) "clip.mp4"
            Samples.quiet) = Ok false
  /\ Spec.claimed_verify Samples.lens_only_tags = true.
Proof. vm_compute. repeat split; reflexivity. Qed.

(** C1, amended.  [verifyMetadata] always resolves to a boolean, and that
    boolean is [true] exactly when the tags can be read and each of the four
    fields [Make], [Model], [Software], [LensModel] is present and contains
    ['Ray-Ban'] or ['Meta']. *)
Theorem verify_each_field (o : Oracle) (filePath : string) (w : World) :
  exists b : bool,
    fst (VideoProcessor.verifyMetadata o filePath w) = Ok b
    /\ (b = true <->
        exists tags,
          exiftool_read o (calls w) filePath = Ok tags
          /\ forall tag, In tag VideoProcessor.requiredTags ->
                         Spec.has_brand_marker tags tag).
Proof.
  rewrite verifyMetadata_result.
  destruct (exiftool_read o (calls w) filePath) as [tags|e] eqn:Hread.
  - destruct (VideoProcessor.every (VideoProcessor.verify_tag tags)
                VideoProcessor.requiredTags) as [b|e] eqn:Hev.
    + exists b. split; [reflexivity|].
      split.
      * intros ->. exists tags. split; [reflexivity|].
        intros tag Htag. apply verify_tag_true.
        apply (proj1 (every_true _ _) Hev tag Htag).
      * intros (tags' & [= <-] & Hall).
        rewrite (all_fields_pass tags Hall) in Hev. congruence.
    + exists false. split; [reflexivity|].
      split; [discriminate|].
      intros (tags' & [= <-] & Hall).
      rewrite (all_fields_pass tags Hall) in Hev. discriminate.
  - exists false. split; [reflexivity|].
    split; [discriminate|]. intros (tags' & [=] & _).
Qed.

(** C6.  With fewer than two input paths the transcoder adapter's merge
    rejects with ['At least 2 videos required for merging'] and leaves the
    world as it was: no call to ffmpeg or to any other tool is made and
    nothing is written.  The orchestrator's merge catches that error, prints
    it and resolves to [false], again without any call. *)
Theorem merge_needs_two_inputs (o : Oracle) (inputPaths : list string)
  (outputPath : string) (config : Types.RayBanConfig) (w : World) :
  List.length inputPaths < 2 ->
  FFmpegProcessor.mergeVideos o inputPaths outputPath config w
  = (Throw "At least 2 videos required for merging", w)
  /\ VideoProcessor.mergeVideos o inputPaths outputPath config w
     = (Ok false,
        mkWorld (calls w)
          ("Error merging videos: At least 2 videos required for merging"
           :: console w)).
Proof.
  intros Hlen.
  assert (Hm : FFmpegProcessor.mergeVideos o inputPaths outputPath config w
               = (Throw "At least 2 videos required for merging", w)).
  { unfold FFmpegProcessor.mergeVideos.
    destruct (Nat.ltb_spec (List.length inputPaths) 2) as [_|Hge]; [reflexivity|lia]. }
  split; [exact Hm|].
  unfold VideoProcessor.mergeVideos, try_catch, bind.
  rewrite Hm. reflexivity.
Qed.

Lemma merge_needs_two_inputs_witness :
  List.length ["only.mp4"] < 2
  /\ VideoProcessor.mergeVideos Samples.videos_oracle ["only.mp4"] "out.mp4"
       Types.empty_config Samples.quiet
     = (Ok false,
        mkWorld []
          ["Error merging videos: At least 2 videos required for merging"]).
Proof.
  split; [cbn; lia|].
  apply (merge_needs_two_inputs Samples.videos_oracle ["only.mp4"] "out.mp4"
           Types.empty_config Samples.quiet).
  cbn; lia.
Defined.

End Verifier.

(* ================================================================== *)
(** ** Facts about paths *)
(* ================================================================== *)

(** The examples of Node's documentation and some corner cases. *)
Example path_examples :
  (path.extname "index.html", path.extname "index.coffee.md",
   path.extname "index.", path.extname "index", path.extname ".index",
   path.extname ".index.md", path.extname "..", path.extname "a/..",
   path.extname "...", path.extname "a.b/", path.extname "..a")
  = (".html", ".md", ".", "", "", ".md", "", "", ".", ".b", ".a")
  /\ (path.basename "/foo/bar/baz/asdf/quux.html" None,
      path.basename "/foo/bar/baz/asdf/quux.html" (Some ".html"),
      path.basename "dir/" None, path.basename "/" None,
      path.basename ".html" (Some ".html"), path.basename "a/.html" (Some ".html"),
      path.basename "b/" (Some "ab"))
     = ("quux.html", "quux", "dir", "", "", ".html", "b/")
  /\ (path.dirname "/foo/bar/baz/asdf/quux", path.dirname "clip.mp4",
      path.dirname "/a", path.dirname "//a", path.dirname "a//b",
      path.dirname "/", path.dirname "", path.dirname "a/b/")
     = ("/foo/bar/baz/asdf", ".", "/", "//", "a/", "/", ".", "a")
  /\ (path.join ["/foo"; "bar"; "baz/asdf"; "quux"; ".."],
      path.join ["."; "clip_rayban.mp4"], path.join ["a/.."; "x"],
      path.join [""; ""], path.join ["/"; "x"], path.join ["../a"; "../../b"],
      path.join ["out/"; "rayban_a.mp4"], path.normalize "/foo/bar//baz/asdf/quux/..",
      path.normalize "./", path.normalize "/..", path.normalize "a/b/")
     = ("/foo/bar/baz/asdf", "clip_rayban.mp4", "x", ".", "/x", "../../b",
        "out/rayban_a.mp4", "/foo/bar/baz/asdf", "./", "/", "a/b/").
Proof. vm_compute. repeat split; reflexivity. Qed.

Section PathFacts.

Lemma no_slash_append (a b : string) :
  Spec.no_slash (a +:+ b) = Spec.no_slash a && Spec.no_slash b.
Proof.
  induction a as [|x a IH]; [reflexivity|].
  rewrite append_cons. cbn. rewrite IH. now rewrite andb_assoc.
Qed.

Lemma split_not_nil (s : string) : path.split s <> [].
Proof.
  destruct s as [|c s]; cbn; [discriminate|].
  destruct (path.is_slash c); [discriminate|].
  destruct (path.split s); discriminate.
Qed.

(** A text without separator is one piece. *)
Lemma split_no_slash (s : string) :
  Spec.no_slash s = true -> path.split s = [s].
Proof.
  induction s as [|c s IH]; [reflexivity|].
  cbn. intros [Hc Hs]%andb_true_iff.
  apply negb_true_iff in Hc. rewrite Hc, (IH Hs). reflexivity.
Qed.

(** No piece has a separator. *)
Lemma split_pieces (s : string) :
  Forall (fun x => Spec.no_slash x = true) (path.split s).
Proof.
  induction s as [|c s IH]; cbn.
  - repeat constructor.
  - destruct (path.is_slash c) eqn:Hc.
    + constructor; [reflexivity|exact IH].
    + destruct (path.split s) as [|x xs]; [repeat constructor; cbn; now rewrite Hc|].
      inversion IH as [|? ? Hx Hxs]; subst.
      constructor; [cbn; now rewrite Hc, Hx|exact Hxs].
Qed.

(** The pieces of [a/b] are those of [a] followed by those of [b]. *)
Lemma split_app (a b : string) :
  path.split (a +:+ "/" +:+ b) = path.split a ++ path.split b.
Proof.
  induction a as [|c a IH]; [reflexivity|].
  rewrite append_cons. cbn [path.split]. rewrite IH.
  destruct (path.is_slash c); [reflexivity|].
  pose proof (split_not_nil a) as Hne.
  destruct (path.split a) as [|x xs]; [congruence|reflexivity].
Qed.

Lemma split_last_snoc (l : list string) (f : string) :
  path.nonempty f = true -> path.split_last (l ++ [f]) = Some (l, f, []).
Proof.
  intros Hf. induction l as [|x l IH]; cbn.
  - now rewrite Hf.
  - now rewrite IH.
Qed.

Lemma join_with_cons (sep x y : string) (l : list string) :
  path.join_with sep (x :: y :: l) = x +:+ sep +:+ path.join_with sep (y :: l).
Proof. reflexivity. Qed.

(** Joining pieces and cutting the result gives the pieces back. *)
Lemma split_join (l : list string) :
  l <> [] -> Forall (fun x => Spec.no_slash x = true) l ->
  path.split (path.join_with "/" l) = l.
Proof.
  induction l as [|x l IH]; [congruence|]. intros _ Hall.
  inversion Hall as [|? ? Hx Hl]; subst.
  destruct l as [|y l].
  - cbn. now apply split_no_slash.
  - rewrite join_with_cons, split_app, (split_no_slash x Hx).
    rewrite IH; [reflexivity|discriminate|exact Hl].
Qed.

Lemma join_with_snoc_nonempty (ks : list string) (f : string) :
  path.nonempty f = true ->
  path.nonempty (path.join_with "/" (ks ++ [f])) = true.
Proof.
  intros Hf. induction ks as [|k ks IH]; [exact Hf|].
  cbn [app].
  destruct (ks ++ [f]) as [|y r] eqn:Hks; [now destruct ks|].
  rewrite join_with_cons. destruct k; reflexivity.
Qed.

Lemma file_name_parts (f : string) :
  Spec.file_name f = true ->
  path.nonempty f = true /\ String.eqb f "." = false
  /\ String.eqb f ".." = false /\ Spec.no_slash f = true.
Proof.
  unfold Spec.file_name.
  intros [[[H1 H2]%andb_true_iff H3]%andb_true_iff H4]%andb_true_iff.
  apply negb_true_iff in H2, H3. auto.
Qed.

(** A file name is pushed as it is. *)
Lemma normalize_step_file_name (allowAboveRoot : bool) (kept : list string)
  (f : string) :
  Spec.file_name f = true ->
  path.normalize_step allowAboveRoot kept f = f :: kept.
Proof.
  intros (Hne & Hdot & Hdotdot & _)%file_name_parts.
  unfold path.normalize_step, path.is_dotdot. rewrite Hdot, Hdotdot.
  destruct f; [discriminate Hne|reflexivity].
Qed.

Lemma normalize_step_pieces (allowAboveRoot : bool) (kept : list string)
  (seg : string) :
  Forall (fun x => Spec.no_slash x = true) kept ->
  Spec.no_slash seg = true ->
  Forall (fun x => Spec.no_slash x = true)
    (path.normalize_step allowAboveRoot kept seg).
Proof.
  intros Hkept Hseg. unfold path.normalize_step.
  destruct (String.eqb seg "" || String.eqb seg "."); [exact Hkept|].
  destruct (path.is_dotdot seg).
  - destruct kept as [|top below].
    + destruct allowAboveRoot; repeat constructor; exact Hseg.
    + inversion Hkept as [|? ? Htop Hbelow]; subst.
      destruct (path.is_dotdot top); [|exact Hbelow].
      destruct allowAboveRoot; [constructor; [exact Hseg|exact Hkept]|exact Hkept].
  - constructor; [exact Hseg|exact Hkept].
Qed.

Lemma fold_normalize_pieces (allowAboveRoot : bool) (segs : list string) :
  forall kept,
    Forall (fun x => Spec.no_slash x = true) kept ->
    Forall (fun x => Spec.no_slash x = true) segs ->
    Forall (fun x => Spec.no_slash x = true)
      (fold_left (path.normalize_step allowAboveRoot) segs kept).
Proof.
  induction segs as [|seg segs IH]; intros kept Hkept Hsegs; [exact Hkept|].
  inversion Hsegs as [|? ? Hseg Hrest]; subst. cbn.
  apply IH; [|exact Hrest]. now apply normalize_step_pieces.
Qed.

(** A path whose last piece is a file name normalizes to a path whose last
    piece is that file name. *)
Lemma normalize_keeps_file_name (s : string) (l : list string) (f : string) :
  path.split s = l ++ [f] -> Spec.file_name f = true ->
  exists ks,
    Forall (fun x => Spec.no_slash x = true) ks
    /\ (path.normalize s = path.join_with "/" (ks ++ [f])
        \/ path.normalize s = "/" +:+ path.join_with "/" (ks ++ [f])).
Proof.
  intros Hsplit Hf.
  pose proof (file_name_parts f Hf) as (Hne & _ & _ & Hns).
  destruct s as [|c s'].
  { destruct l; [injection Hsplit as <-; discriminate Hne|].
    destruct l; discriminate Hsplit. }
  remember (String c s') as s eqn:Hs.
  set (allow := negb (path.is_slash c)).
  set (kept := fold_left (path.normalize_step allow) l []).
  assert (Hkept : Forall (fun x => Spec.no_slash x = true) kept).
  { apply fold_normalize_pieces; [constructor|].
    pose proof (split_pieces s) as Hall. rewrite Hsplit in Hall.
    apply Forall_app in Hall. apply Hall. }
  assert (Hres : path.normalizeString s allow
                 = path.join_with "/" (List.rev kept ++ [f])).
  { unfold path.normalizeString. rewrite Hsplit, fold_left_app. cbn [fold_left].
    fold kept. rewrite (normalize_step_file_name allow kept f Hf). reflexivity. }
  assert (Htrail : path.ends_with_slash s = false).
  { unfold path.ends_with_slash. rewrite Hsplit, last_last.
    destruct f; [discriminate Hne|reflexivity]. }
  exists (List.rev kept). split.
  { apply Forall_rev. exact Hkept. }
  pose proof (join_with_snoc_nonempty (List.rev kept) f Hne) as Hnonempty.
  rewrite <- Hres in *.
  rewrite Hs at 1 3. unfold path.normalize. rewrite <- Hs.
  fold allow. rewrite Htrail.
  destruct (path.normalizeString s allow); [discriminate Hnonempty|].
  destruct (path.is_slash c); auto.
Qed.

Lemma last_component_of_pieces (ks : list string) (f : string) :
  Forall (fun x => Spec.no_slash x = true) ks -> Spec.file_name f = true ->
  path.last_component (path.join_with "/" (ks ++ [f])) = f
  /\ path.last_component ("/" +:+ path.join_with "/" (ks ++ [f])) = f.
Proof.
  intros Hks Hf.
  pose proof (file_name_parts f Hf) as (Hne & _ & _ & Hns).
  assert (Hsplit : path.split (path.join_with "/" (ks ++ [f])) = ks ++ [f]).
  { apply split_join; [now destruct ks|].
    apply Forall_app. split; [exact Hks|]. repeat constructor. exact Hns. }
  unfold path.last_component. split.
  - now rewrite Hsplit, split_last_snoc.
  - change ("/" +:+ path.join_with "/" (ks ++ [f]))
      with (String "/" (path.join_with "/" (ks ++ [f]))).
    cbn [path.split]. change (path.is_slash "/") with true. cbn iota.
    rewrite Hsplit.
    change ("" :: ks ++ [f]) with (("" :: ks) ++ [f]).
    now rewrite split_last_snoc.
Qed.

(** The last component of [join(d, f)] is the file name [f]. *)
Lemma basename_join (d f : string) :
  Spec.file_name f = true -> path.basename (path.join [d; f]) None = f.
Proof.
  intros Hf.
  pose proof (file_name_parts f Hf) as (Hne & _ & _ & Hns).
  assert (Hsplit : exists l,
             path.join [d; f]
             = path.normalize (path.join_with "/" (List.filter path.nonempty [d; f]))
             /\ path.split (path.join_with "/" (List.filter path.nonempty [d; f]))
                = l ++ [f]).
  { unfold path.join. cbn [List.filter]. rewrite Hne.
    destruct (path.nonempty d).
    - exists (path.split d). split; [reflexivity|].
      rewrite join_with_cons. cbn [path.join_with].
      now rewrite split_app, (split_no_slash f Hns).
    - exists []. split; [reflexivity|].
      cbn [path.join_with]. now rewrite (split_no_slash f Hns). }
  destruct Hsplit as (l & -> & Hsplit).
  destruct (normalize_keeps_file_name _ l f Hsplit Hf) as (ks & Hks & [-> | ->]);
    unfold path.basename; now apply last_component_of_pieces.
Qed.

Lemma split_ext_app (seg stem e : string) :
  path.split_ext seg = Some (stem, e) -> seg = stem +:+ e.
Proof.
  revert stem e. induction seg as [|c seg IH]; intros stem e; [discriminate|].
  cbn. destruct (path.split_ext seg) as [[stem' e']|].
  - intros [= <- <-]. rewrite append_cons. f_equal. now apply IH.
  - destruct (path.is_dot c); [|discriminate]. now intros [= <- <-].
Qed.

Lemma strip_suffix_cons (sfx : string) (c : ascii) (s : string) :
  path.strip_suffix sfx (String c s)
  = if String.eqb (String c s) sfx then Some ""
    else option_map (String c) (path.strip_suffix sfx s).
Proof. reflexivity. Qed.

Lemma strip_suffix_app (stem e : string) :
  path.strip_suffix e (stem +:+ e) = Some stem.
Proof.
  induction stem as [|c stem IH].
  - rewrite append_empty_l. destruct e as [|x e]; cbn.
    + reflexivity.
    + now rewrite Ascii.eqb_refl, String.eqb_refl.
  - rewrite append_cons, strip_suffix_cons.
    destruct (String.eqb_spec (String c (stem +:+ e)) e) as [Heq|_].
    + apply (f_equal String.length) in Heq. cbn in Heq.
      rewrite length_append in Heq. lia.
    + now rewrite IH.
Qed.

Lemma split_piece_length (s : string) :
  Forall (fun x => String.length x <= String.length s) (path.split s).
Proof.
  induction s as [|c s IH]; cbn.
  - repeat constructor.
  - destruct (path.is_slash c).
    + constructor; [cbn; lia|].
      eapply Forall_impl; [exact IH|]. cbn. intros; lia.
    + destruct (path.split s) as [|x xs] eqn:Hsplit;
        [now destruct (split_not_nil s)|].
      inversion IH as [|? ? Hx Hxs]; subst.
      constructor; [cbn; lia|].
      eapply Forall_impl; [exact Hxs|]. cbn. intros; lia.
Qed.

Lemma split_last_parts (segs pre post : list string) (seg : string) :
  path.split_last segs = Some (pre, seg, post) ->
  segs = pre ++ seg :: post /\ path.nonempty seg = true.
Proof.
  revert pre. induction segs as [|x segs IH]; intros pre; [discriminate|].
  cbn. destruct (path.split_last segs) as [[[pre' seg'] post']|].
  - intros [= <- <- <-]. destruct (IH pre' eq_refl) as [-> Hne]. auto.
  - destruct (path.nonempty x) eqn:Hx; [|discriminate].
    intros [= <- <- <-]. auto.
Qed.

(** The last component is one piece of the path: it has no separator and is
    not longer than the path. *)
Lemma last_component_piece (p : string) :
  Spec.no_slash (path.last_component p) = true
  /\ String.length (path.last_component p) <= String.length p.
Proof.
  unfold path.last_component.
  destruct (path.split_last (path.split p)) as [[[pre seg] post]|] eqn:Hlast;
    [|split; [reflexivity|cbn; lia]].
  apply split_last_parts in Hlast as [Hsegs _].
  pose proof (split_pieces p) as Hns. pose proof (split_piece_length p) as Hlen.
  rewrite Hsegs in Hns, Hlen.
  apply Forall_app in Hns as [_ Hns]. apply Forall_app in Hlen as [_ Hlen].
  inversion Hns; inversion Hlen; subst. auto.
Qed.

Lemma last_component_self (p : string) :
  Spec.no_slash p = true -> path.last_component p = p.
Proof.
  intros Hns. unfold path.last_component. rewrite (split_no_slash p Hns).
  destruct p; reflexivity.
Qed.

Lemma split_ext_nonempty (seg stem e : string) :
  path.split_ext seg = Some (stem, e) -> path.nonempty e = true.
Proof.
  revert stem e. induction seg as [|c seg IH]; intros stem e; [discriminate|].
  cbn. destruct (path.split_ext seg) as [[stem' e']|].
  - intros [= <- <-]. now apply (IH stem').
  - destruct (path.is_dot c); [|discriminate]. now intros [= <- <-].
Qed.

(** Either the path has no extension, or its last component is a non-empty
    stem followed by the extension. *)
Lemma extname_cases (p : string) :
  path.extname p = ""
  \/ exists stem, path.nonempty stem = true
                  /\ path.nonempty (path.extname p) = true
                  /\ path.last_component p = stem +:+ path.extname p.
Proof.
  unfold path.extname.
  destruct (path.split_ext (path.last_component p)) as [[stem e]|] eqn:Hext;
    [|now left].
  pose proof (split_ext_nonempty _ _ _ Hext) as Hne.
  apply split_ext_app in Hext.
  destruct stem as [|c stem]; [now left|].
  destruct (String.eqb (String c stem) "." && String.eqb e "."); [now left|].
  right. exists (String c stem). auto.
Qed.

(** [basename(p, extname(p))] followed by [extname(p)] is the last component
    of [p]. *)
Lemma basename_extname (p : string) :
  path.basename p (Some (path.extname p)) +:+ path.extname p
  = path.last_component p.
Proof.
  destruct (extname_cases p) as [Hnone | (stem & Hstem & He & Hlast)].
  - rewrite Hnone. unfold path.basename. cbn. apply append_empty_r.
  - pose proof (last_component_piece p) as [Hns Hlen].
    set (e := path.extname p) in *.
    rewrite Hlast, no_slash_append in Hns. apply andb_true_iff in Hns as [_ Hnse].
    rewrite Hlast, length_append in Hlen.
    unfold path.basename. rewrite He. cbn [andb].
    destruct (Nat.leb_spec (String.length e) (String.length p)) as [_|Hgt]; [|lia].
    destruct (String.eqb_spec e p) as [Heq|_].
    { rewrite <- Heq, (last_component_self e Hnse) in Hlast.
      apply (f_equal String.length) in Hlast. rewrite length_append in Hlast.
      destruct stem; [discriminate Hstem|cbn in Hlast; lia]. }
    unfold path.last_component in *.
    destruct (path.split_last (path.split p)) as [[[pre seg] post]|].
    + rewrite Hlast, strip_suffix_app.
      destruct stem; [discriminate Hstem|reflexivity].
    + destruct stem; [discriminate Hstem|discriminate Hlast].
Qed.

Lemma basename_extname_no_slash (p : string) :
  Spec.no_slash (path.basename p (Some (path.extname p))) = true
  /\ Spec.no_slash (path.extname p) = true.
Proof.
  pose proof (last_component_piece p) as [Hns _].
  rewrite <- basename_extname, no_slash_append in Hns.
  now apply andb_true_iff in Hns.
Qed.

(** The default file name is a file name proper, as long as the operation
    suffix has no separator. *)
Lemma output_file_name_proper (inputPath : string) (frontCamera : option bool)
  (operation : option string) :
  Spec.no_slash (default "" operation) = true ->
  Spec.file_name (Spec.output_file_name inputPath frontCamera operation) = true.
Proof.
  intros Hop.
  destruct (basename_extname_no_slash inputPath) as [Hname Hext].
  assert (Hlen : 7 <= String.length
                        (Spec.output_file_name inputPath frontCamera operation)).
  { unfold Spec.output_file_name. rewrite !length_append. cbn. lia. }
  unfold Spec.file_name.
  repeat (apply andb_true_iff; split).
  - destruct (Spec.output_file_name inputPath frontCamera operation);
      [cbn in Hlen; lia|reflexivity].
  - apply negb_true_iff.
    destruct (String.eqb_spec
                (Spec.output_file_name inputPath frontCamera operation) ".")
      as [Heq|_]; [|reflexivity].
    rewrite Heq in Hlen. cbn in Hlen. lia.
  - apply negb_true_iff.
    destruct (String.eqb_spec
                (Spec.output_file_name inputPath frontCamera operation) "..")
      as [Heq|_]; [|reflexivity].
    rewrite Heq in Hlen. cbn in Hlen. lia.
  - unfold Spec.output_file_name. rewrite !no_slash_append, Hname, Hext.
    clear Hname Hext Hlen.
    destruct (default false frontCamera); destruct operation as [[|c o]|];
      cbn in Hop |- *; rewrite ?no_slash_append; cbn; rewrite ?Hop; reflexivity.
Qed.

End PathFacts.

(* ================================================================== *)
(** ** Properties of the orchestrator *)
(* ================================================================== *)

Section Orchestrator.
Import IO.

(** The two members named [generateOutputPath] agree on the calls that pass
    no operation suffix. *)
Lemma generateOutputPath_base_agrees (inputPath : string)
  (frontCamera : option bool) :
  VideoProcessor.generateOutputPath_base inputPath frontCamera
  = VideoProcessor.generateOutputPath inputPath frontCamera None.
Proof. reflexivity. Qed.

(** The path [generateOutputPath] builds, with the pieces of its file name
    spelled out. *)
Lemma generateOutputPath_composition (inputPath : string)
  (frontCamera : option bool) (operation : option string) :
  VideoProcessor.generateOutputPath inputPath frontCamera operation
  = path.join [path.dirname inputPath;
               Spec.output_file_name inputPath frontCamera operation].
Proof.
  unfold VideoProcessor.generateOutputPath, Spec.output_file_name.
  do 2 f_equal. f_equal.
  destruct (default false frontCamera); destruct operation as [[|c s]|]; cbn;
    reflexivity.
Qed.

(** C7.  Without an explicit output path, and for an operation suffix that
    has no separator in it, the default output path is the entry named
    [<basename>_rayban[_front][_<operation>]<ext>] of the input's directory:
    it is the join of [dirname(input)] with that name, and that name is its
    last component.  Here [<ext>] is the input's extension and [<basename>]
    the input's last component without it; [_front] is present for the front
    camera and [_<operation>] for a non-empty operation suffix.  For
    [clip.mp4], the main camera and no operation, the path is
    [clip_rayban.mp4], next to the input. *)
Theorem default_output_path (inputPath : string) (frontCamera : option bool)
  (operation : option string) :
  Spec.no_slash (default "" operation) = true ->
  VideoProcessor.generateOutputPath inputPath frontCamera operation
  = path.join [path.dirname inputPath;
               Spec.output_file_name inputPath frontCamera operation]
  /\ path.basename
       (VideoProcessor.generateOutputPath inputPath frontCamera operation) None
     = Spec.output_file_name inputPath frontCamera operation
  /\ path.basename inputPath (Some (path.extname inputPath))
     +:+ path.extname inputPath
     = path.basename inputPath None
  /\ VideoProcessor.generateOutputPath "clip.mp4" None None = "clip_rayban.mp4"
  /\ VideoProcessor.generateOutputPath "clip.mp4" (Some false) None
     = "clip_rayban.mp4"
  /\ path.dirname "clip_rayban.mp4" = path.dirname "clip.mp4".
Proof.
  intros Hop.
  split; [apply generateOutputPath_composition|].
  split.
  { rewrite generateOutputPath_composition. apply basename_join.
    now apply output_file_name_proper. }
  split; [apply basename_extname|].
  repeat split; vm_compute; reflexivity.
Qed.

Lemma default_output_path_witness :
  Spec.no_slash (default "" (Some "optimized")) = true
  /\ VideoProcessor.generateOutputPath "/home/me/videos/trip.final.MOV"
       (Some true) (Some "optimized")
     = "/home/me/videos/trip.final_rayban_front_optimized.MOV"
  /\ path.basename
       (VideoProcessor.generateOutputPath "/home/me/videos/trip.final.MOV"
          (Some true) (Some "optimized")) None
     = "trip.final_rayban_front_optimized.MOV".
Proof.
  split; [reflexivity|].
  destruct (default_output_path "/home/me/videos/trip.final.MOV" (Some true)
              (Some "optimized") eq_refl) as (Hpath & Hname & _).
  split.
  - rewrite Hpath. vm_compute. reflexivity.
  - rewrite Hname. vm_compute. reflexivity.
Defined.

(** The loop of [getVideoFiles] asks [stat] about every entry, in order,
    and adds to what it has the regular files with an allowed extension,
    all of them and nothing else. *)
Lemma getVideoFiles_loop_exact (o : Oracle) (directory : string)
  (files : list string) :
  forall (acc : list Types.VideoFile) (w : World)
         (videoFiles : list Types.VideoFile) (w1 : World),
    VideoProcessor.getVideoFiles_loop o directory files acc w
    = (Ok videoFiles, w1) ->
    exists stats,
      Spec.stat_answers o directory files (calls w) = Some stats
      /\ videoFiles = acc ++ Spec.recognized_files directory files stats
      /\ calls w1
         = List.rev (map (fun file => FsStat (path.join [directory; file])) files)
           ++ calls w
      /\ console w1 = console w.
Proof.
  induction files as [|file rest IH]; intros acc w videoFiles w1 Hrun.
  - cbn in Hrun. injection Hrun as <- <-. exists [].
    rewrite app_nil_r. repeat split.
  - cbn [VideoProcessor.getVideoFiles_loop] in Hrun.
    unfold bind at 1, external at 1 in Hrun.
    cbn [Spec.stat_answers].
    destruct (stat o (calls w) (path.join [directory; file])) as [st|e];
      [|discriminate Hrun].
    change (VideoProcessor.isVideoFile (path.join [directory; file]))
      with (Spec.allowed_extension (path.join [directory; file])) in Hrun.
    destruct (isFile st && Spec.allowed_extension (path.join [directory; file]))
      eqn:Hkeep;
      apply IH in Hrun as (stats & Hstats & -> & Hcalls & Hconsole);
      cbn [calls console] in Hstats, Hcalls, Hconsole;
      exists (st :: stats); rewrite Hstats;
      cbn [option_map Spec.recognized_files map List.rev]; rewrite Hkeep;
      rewrite Hcalls, <- !app_assoc; repeat split; assumption.
Qed.

Lemma getVideoFiles_exact (o : Oracle) (directory : string) (w : World)
  (videoFiles : list Types.VideoFile) (w1 : World) :
  VideoProcessor.getVideoFiles o directory w = (Ok videoFiles, w1) ->
  exists listing stats,
    readdir o (calls w) directory = Ok listing
    /\ Spec.stat_answers o directory listing (FsReaddir directory :: calls w)
       = Some stats
    /\ videoFiles = Spec.recognized_files directory listing stats
    /\ calls w1 = Spec.enumeration_calls directory listing ++ calls w
    /\ console w1 = console w.
Proof.
  unfold VideoProcessor.getVideoFiles, bind at 1, external at 1.
  destruct (readdir o (calls w) directory) as [listing|e]; [|discriminate].
  intros Hrun.
  apply getVideoFiles_loop_exact
    in Hrun as (stats & Hstats & -> & Hcalls & Hconsole).
  exists listing, stats. unfold Spec.enumeration_calls.
  rewrite Hcalls, <- app_assoc. repeat split; assumption.
Qed.

(** One turn of the loop: the file is processed, a line is printed, and a
    counter moves by the outcome; the exception of a failing file is caught
    here and goes no further. *)
Lemma batch_step_outcome
  (process : string -> option string -> Types.RayBanConfig -> IO bool)
  (outputDir : option string) (config : Types.RayBanConfig)
  (results : VideoProcessor.BatchResults) (videoFile : Types.VideoFile)
  (w : World) :
  VideoProcessor.batch_step process outputDir config results videoFile w
  = let r := fst (process (Types.path videoFile)
                    (Spec.batch_output outputDir videoFile) config w) in
    let w1 := snd (process (Types.path videoFile)
                     (Spec.batch_output outputDir videoFile) config w) in
    (Ok {| VideoProcessor.success :=
             VideoProcessor.success results
             + (if Spec.succeeded r then 1 else 0);
           VideoProcessor.failed :=
             VideoProcessor.failed results
             + (if Spec.succeeded r then 0 else 1);
           VideoProcessor.total := VideoProcessor.total results |},
     mkWorld (calls w1) (Spec.batch_line videoFile r :: console w1)).
Proof.
  unfold VideoProcessor.batch_step, try_catch, bind, Spec.batch_output.
  destruct (process (Types.path videoFile) _ config w) as [[[|]|e] w1]; cbn;
    rewrite ?Nat.add_0_r, ?Nat.add_1_r; reflexivity.
Qed.

Lemma batch_loop_attempts
  (process : string -> option string -> Types.RayBanConfig -> IO bool)
  (outputDir : option string) (config : Types.RayBanConfig)
  (videoFiles : list Types.VideoFile) :
  forall (results : VideoProcessor.BatchResults) (w : World),
    VideoProcessor.batch_loop process outputDir config videoFiles results w
    = (Ok {| VideoProcessor.success :=
               VideoProcessor.success results
               + Spec.count_succeeded
                   (fst (Spec.attempts process outputDir config videoFiles w));
             VideoProcessor.failed :=
               VideoProcessor.failed results
               + Spec.count_failed
                   (fst (Spec.attempts process outputDir config videoFiles w));
             VideoProcessor.total := VideoProcessor.total results |},
       snd (Spec.attempts process outputDir config videoFiles w)).
Proof.
  induction videoFiles as [|videoFile rest IH]; intros results w.
  - cbn. rewrite !Nat.add_0_r. destruct results; reflexivity.
  - cbn [VideoProcessor.batch_loop Spec.attempts].
    unfold bind at 1. rewrite batch_step_outcome. cbv beta iota zeta.
    rewrite IH. cbn [VideoProcessor.success VideoProcessor.failed VideoProcessor.total].
    destruct (process (Types.path videoFile)
                (Spec.batch_output outputDir videoFile) config w) as [r w1].
    cbn [fst snd].
    destruct (Spec.attempts process outputDir config rest _) as [rs w3].
    cbn [fst snd].
    unfold Spec.count_succeeded, Spec.count_failed.
    destruct r as [[|]|e]; cbn; do 3 f_equal; lia.
Qed.

Lemma attempts_length
  (process : string -> option string -> Types.RayBanConfig -> IO bool)
  (outputDir : option string) (config : Types.RayBanConfig)
  (videoFiles : list Types.VideoFile) :
  forall w : World,
    List.length (fst (Spec.attempts process outputDir config videoFiles w))
    = List.length videoFiles.
Proof.
  induction videoFiles as [|videoFile rest IH]; intros w; [reflexivity|].
  cbn [Spec.attempts].
  destruct (process _ _ config w) as [r w1].
  specialize (IH (mkWorld (calls w1) (Spec.batch_line videoFile r :: console w1))).
  destruct (Spec.attempts process outputDir config rest _) as [rs w3].
  cbn in *. now rewrite IH.
Qed.

Lemma counts_partition (rs : list (Result bool)) :
  Spec.count_succeeded rs + Spec.count_failed rs = List.length rs.
Proof.
  unfold Spec.count_succeeded, Spec.count_failed.
  induction rs as [|r rs IH]; [reflexivity|].
  destruct r as [[|]|e]; cbn; lia.
Qed.

(** [addMetadata] catches every failure: it always resolves, to [true] or
    to [false], and never rejects. *)
Lemma addMetadata_resolves (o : Oracle) (inputPath : string)
  (outputPath : option string) (config : Types.RayBanConfig)
  (processVideo : bool) (w : World) :
  exists (b : bool) (w1 : World),
    VideoProcessor.addMetadata o inputPath outputPath config processVideo w
    = (Ok b, w1).
Proof.
  unfold VideoProcessor.addMetadata, try_catch.
  match goal with
  | |- context [match ?m w with _ => _ end] => destruct (m w) as [[b|e] w1]
  end.
  - exists b, w1. reflexivity.
  - eexists false, _. reflexivity.
Qed.


(** C5.  When the enumeration of a directory yields the video files
    [videoFiles], these are exactly the recognized files: the entries of the
    one listing of the directory that [stat] reports as regular files and
    whose extension is in the allow-list, every one of them, in the order of
    the listing; nothing but that listing and the entries' [stat] is asked.
    The batch processes each of these files once, in order, each in the
    world the previous one left: a file that resolves to [false] or throws
    does not keep the later files from being attempted.  The batch resolves
    with [total] equal to the number of files, [success] the number of files
    whose processing resolved to [true] and [failed] the number of the
    others, so that [success + failed = total]. *)
Theorem batch_tally (o : Oracle)
  (process : string -> option string -> Types.RayBanConfig -> IO bool)
  (directory : string) (outputDir : option string)
  (config : Types.RayBanConfig) (w : World)
  (videoFiles : list Types.VideoFile) (w1 : World) :
  VideoProcessor.getVideoFiles o directory w = (Ok videoFiles, w1) ->
  VideoProcessor.batchProcess_with o process directory outputDir config w
  = (Ok {| VideoProcessor.success :=
             Spec.count_succeeded
               (fst (Spec.attempts process outputDir config videoFiles w1));
           VideoProcessor.failed :=
             Spec.count_failed
               (fst (Spec.attempts process outputDir config videoFiles w1));
           VideoProcessor.total := List.length videoFiles |},
     snd (Spec.attempts process outputDir config videoFiles w1))
  /\ List.length (fst (Spec.attempts process outputDir config videoFiles w1))
     = List.length videoFiles
  /\ Spec.count_succeeded
       (fst (Spec.attempts process outputDir config videoFiles w1))
     + Spec.count_failed
         (fst (Spec.attempts process outputDir config videoFiles w1))
     = List.length videoFiles
  /\ exists listing stats,
       readdir o (calls w) directory = Ok listing
       /\ Spec.stat_answers o directory listing (FsReaddir directory :: calls w)
          = Some stats
       /\ videoFiles = Spec.recognized_files directory listing stats
       /\ calls w1 = Spec.enumeration_calls directory listing ++ calls w
       /\ console w1 = console w.
Proof.
  intros Henum. split; [|split; [|split]].
  - unfold VideoProcessor.batchProcess_with, bind at 1.
    rewrite Henum. rewrite batch_loop_attempts. reflexivity.
  - apply attempts_length.
  - rewrite counts_partition. apply attempts_length.
  - apply (getVideoFiles_exact o directory w videoFiles w1 Henum).
Qed.

Lemma batch_tally_witness :
  fst (VideoProcessor.getVideoFiles Samples.videos_oracle "videos" Samples.quiet)
  = Ok [ {| Types.path := "videos/a.mp4"; Types.name := "a.mp4";
            Types.size := 1024; Types.extension := ".mp4" |};
         {| Types.path := "videos/b.MOV"; Types.name := "b.MOV";
            Types.size := 1024; Types.extension := ".MOV" |};
         {| Types.path := "videos/c.mkv"; Types.name := "c.mkv";
            Types.size := 1024; Types.extension := ".mkv" |} ]
  /\ fst (VideoProcessor.batchProcess Samples.videos_oracle "videos" None
            Types.empty_config Samples.quiet)
     = Ok {| VideoProcessor.success := 2; VideoProcessor.failed := 1;
             VideoProcessor.total := 3 |}.
Proof.
  split; [vm_compute; reflexivity|].
  unfold VideoProcessor.batchProcess.
  rewrite (proj1 (batch_tally Samples.videos_oracle _ "videos" None
                    Types.empty_config Samples.quiet _ _ eq_refl)).
  vm_compute. reflexivity.
Defined.

(** In that batch the second file fails and the third is still written. *)
Example batch_continues_after_failure :
  map (fun c => match c with ExiftoolWrite p _ => p | _ => "" end)
    (List.filter (fun c => match c with ExiftoolWrite _ _ => true | _ => false end)
       (List.rev
          (calls (snd (VideoProcessor.batchProcess Samples.videos_oracle "videos"
                         None Types.empty_config Samples.quiet)))))
  = ["videos/a_rayban.mp4"; "videos/b_rayban.MOV"; "videos/c_rayban.mkv"].
Proof. vm_compute. reflexivity. Qed.

End Orchestrator.

(* ================================================================== *)
(** ** Further properties of the metadata resolver *)
(* ================================================================== *)

Section ResolverFurther.
Import Types.

(** No key of the preset table is the name of a member of
    [Object.prototype]. *)
Lemma own_key_not_inherited (n : string) (l : Constants.Location) :
  Constants.LOCATIONS !! n = Some l -> JS.is_prototype_key n = false.
Proof.
  intros Hown. apply LOCATIONS_own_keys in Hown. cbn in Hown.
  repeat (destruct Hown as [[= <- <-]|Hown]; [reflexivity|]).
  destruct Hown.
Qed.

(** X1.  The three GPS fields of a resolved record are all defined or all
    undefined, and they are undefined exactly when latitude and longitude
    are not both non-empty and the location name is the name of a member of
    [Object.prototype]. *)
Theorem gps_fields_together (now : JS.Date) (config : RayBanConfig) :
  (Spec.gps (MetadataGenerator.generateMetadata now config) = (None, None, None)
   \/ exists la lo al,
        Spec.gps (MetadataGenerator.generateMetadata now config)
        = (Some la, Some lo, Some al))
  /\ (Spec.gps (MetadataGenerator.generateMetadata now config) = (None, None, None)
      <-> JS.truthy (latitude config) && JS.truthy (longitude config) = false
          /\ Spec.regular_location_name config = false).
Proof.
  unfold Spec.gps, MetadataGenerator.generateMetadata; cbn.
  destruct (JS.truthy (latitude config) && JS.truthy (longitude config)) eqn:Hb.
  - unfold MetadataGenerator.resolve_location. rewrite Hb. cbn. split.
    + right. do 3 eexists. reflexivity.
    + split; [discriminate|]. intros [[=] _].
  - rewrite named_or_default by exact Hb.
    unfold Spec.regular_location_name.
    destruct (locationName config) as [[|c n]|].
    + split; [right; do 3 eexists; reflexivity|].
      split; [discriminate|]. intros [_ [=]].
    + unfold JS.get.
      destruct (Constants.LOCATIONS !! String c n) as [l|] eqn:Hown.
      * rewrite (own_key_not_inherited _ _ Hown).
        split; [right; do 3 eexists; reflexivity|].
        split; [discriminate|]. intros [_ [=]].
      * destruct (JS.is_prototype_key (String c n)).
        -- split; [left; reflexivity|]. split; auto.
        -- split; [right; do 3 eexists; reflexivity|].
           split; [discriminate|]. intros [_ [=]].
    + split; [right; do 3 eexists; reflexivity|].
      split; [discriminate|]. intros [_ [=]].
Qed.

(** The clock only reaches the two timestamps. *)
Lemma clock_only_in_timestamps (now now' : JS.Date) (config : RayBanConfig) :
  Effects.same_but_dates (MetadataGenerator.generateMetadata now config)
    (MetadataGenerator.generateMetadata now' config).
Proof. reflexivity. Qed.

(** X2.  With a non-empty custom date the resolved record does not depend
    on the time of the resolution. *)
Theorem custom_date_fixes_record (now now' : JS.Date) (config : RayBanConfig) :
  JS.truthy (customDate config) = true ->
  MetadataGenerator.generateMetadata now config
  = MetadataGenerator.generateMetadata now' config.
Proof.
  intros Hdate. unfold MetadataGenerator.generateMetadata,
    MetadataGenerator.resolve_date.
  destruct (customDate config) as [[|c s]|]; [discriminate| |discriminate].
  reflexivity.
Qed.

Lemma custom_date_fixes_record_witness :
  JS.truthy (customDate Samples.dated) = true
  /\ MetadataGenerator.generateMetadata Samples.noon Samples.dated
     = MetadataGenerator.generateMetadata Samples.later Samples.dated.
Proof.
  split; [reflexivity|].
  apply (custom_date_fixes_record Samples.noon Samples.later Samples.dated).
  reflexivity.
Defined.

End ResolverFurther.

(* ================================================================== *)
(** ** Further properties of the generated paths *)
(* ================================================================== *)

Section PathsFurther.

Lemma string_of_uint_no_slash (d : Decimal.uint) :
  Spec.no_slash (NilEmpty.string_of_uint d) = true.
Proof. induction d; cbn; auto. Qed.

Lemma string_of_N_no_slash (n : N) : Spec.no_slash (JS.string_of_N n) = true.
Proof.
  unfold JS.string_of_N, NilZero.string_of_uint.
  destruct (N.to_uint n); try reflexivity; apply string_of_uint_no_slash.
Qed.

(** A name of at least three characters without separator is a file name
    proper. *)
Lemma long_name_is_file_name (f : string) :
  3 <= String.length f -> Spec.no_slash f = true -> Spec.file_name f = true.
Proof.
  intros Hlen Hns. unfold Spec.file_name. rewrite Hns.
  destruct f as [|a [|b [|c f]]]; cbn in Hlen; try lia.
  cbn. destruct (Ascii.eqb a "."), (Ascii.eqb b "."); reflexivity.
Qed.

Lemma temp_file_name_proper (inputPath suffix : string) (timestamp : N) :
  Spec.no_slash suffix = true ->
  Spec.file_name (Effects.temp_file_name inputPath suffix timestamp) = true.
Proof.
  intros Hsuffix.
  destruct (basename_extname_no_slash inputPath) as [Hname Hext].
  apply long_name_is_file_name.
  - unfold Effects.temp_file_name. rewrite !length_append.
    assert (1 <= String.length (JS.string_of_N timestamp)).
    { unfold JS.string_of_N, NilZero.string_of_uint.
      destruct (N.to_uint timestamp); cbn; lia. }
    cbn. lia.
  - unfold Effects.temp_file_name.
    rewrite !no_slash_append, Hname, Hext, Hsuffix, string_of_N_no_slash.
    reflexivity.
Qed.

Lemma generateTempPath_composition (inputPath suffix : string) (timestamp : N) :
  VideoProcessor.generateTempPath inputPath suffix timestamp
  = path.join [path.dirname inputPath;
               Effects.temp_file_name inputPath suffix timestamp].
Proof. reflexivity. Qed.

(** A path whose last component is longer than the last component of [p] is
    not [p]. *)
Lemma longer_name_differs (d f p : string) :
  Spec.file_name f = true ->
  String.length (path.last_component p) < String.length f ->
  String.eqb (path.join [d; f]) p = false.
Proof.
  intros Hf Hlen. apply String.eqb_neq. intros Heq.
  pose proof (basename_join d f Hf) as Hbase. rewrite Heq in Hbase.
  unfold path.basename in Hbase. rewrite Hbase in Hlen. lia.
Qed.

Lemma output_name_longer (inputPath : string) (frontCamera : option bool)
  (operation : option string) :
  String.length (path.last_component inputPath)
  < String.length (Spec.output_file_name inputPath frontCamera operation).
Proof.
  rewrite <- basename_extname. unfold Spec.output_file_name.
  rewrite !length_append. cbn. lia.
Qed.

Lemma temp_name_longer (inputPath suffix : string) (timestamp : N) :
  String.length (path.last_component inputPath)
  < String.length (Effects.temp_file_name inputPath suffix timestamp).
Proof.
  rewrite <- basename_extname. unfold Effects.temp_file_name.
  rewrite !length_append. cbn. lia.
Qed.

(** The temporary path is neither the input path nor the default output
    path. *)
Lemma temp_path_differs (inputPath : string) (timestamp : N) :
  String.eqb (VideoProcessor.generateTempPath inputPath "processed" timestamp)
    inputPath = false.
Proof.
  rewrite generateTempPath_composition.
  apply longer_name_differs;
    [now apply temp_file_name_proper|apply temp_name_longer].
Qed.

Lemma temp_path_differs_output (inputPath : string) (timestamp : N)
  (frontCamera : option bool) :
  String.eqb (VideoProcessor.generateTempPath inputPath "processed" timestamp)
    (VideoProcessor.generateOutputPath inputPath frontCamera None) = false.
Proof.
  pose proof (temp_file_name_proper inputPath "processed" timestamp eq_refl)
    as Htemp.
  rewrite generateTempPath_composition.
  apply String.eqb_neq. intros Heq.
  apply (f_equal (fun p => path.basename p None)) in Heq.
  rewrite generateOutputPath_composition in Heq.
  rewrite !basename_join in Heq;
    [|now apply output_file_name_proper|exact Htemp].
  unfold Effects.temp_file_name, Spec.output_file_name in Heq.
  apply String.app_inj in Heq.
  destruct (default false frontCamera); discriminate Heq.
Qed.

(** X3.  The default output path is never the input path itself, whatever
    the input path, the camera and the operation suffix (a suffix without
    separator): a run without an explicit output path cannot overwrite its
    input. *)
Theorem default_output_is_not_input (inputPath : string)
  (frontCamera : option bool) (operation : option string) :
  Spec.no_slash (default "" operation) = true ->
  String.eqb (VideoProcessor.generateOutputPath inputPath frontCamera operation)
    inputPath = false.
Proof.
  intros Hop. rewrite generateOutputPath_composition.
  apply longer_name_differs;
    [now apply output_file_name_proper|apply output_name_longer].
Qed.

Lemma default_output_is_not_input_witness :
  Spec.no_slash (default "" (Some "optimized")) = true
  /\ String.eqb
       (VideoProcessor.generateOutputPath "videos/../clip.mp4/" None
          (Some "optimized"))
       "videos/../clip.mp4/" = false.
Proof.
  split; [reflexivity|].
  apply (default_output_is_not_input "videos/../clip.mp4/" None
           (Some "optimized")).
  reflexivity.
Defined.

(** X4.  The temporary path of a transcoding run has the file name
    [<basename>_processed_<timestamp><ext>]; it is neither the input path
    nor the default output path, for every input path, timestamp and
    camera. *)
Theorem temp_path_is_fresh (inputPath : string) (timestamp : N)
  (frontCamera : option bool) :
  path.basename (VideoProcessor.generateTempPath inputPath "processed" timestamp)
    None
  = Effects.temp_file_name inputPath "processed" timestamp
  /\ String.eqb (VideoProcessor.generateTempPath inputPath "processed" timestamp)
       inputPath = false
  /\ String.eqb (VideoProcessor.generateTempPath inputPath "processed" timestamp)
       (VideoProcessor.generateOutputPath inputPath frontCamera None) = false.
Proof.
  pose proof (temp_file_name_proper inputPath "processed" timestamp eq_refl)
    as Htemp.
  split; [|split].
  - rewrite generateTempPath_composition. now apply basename_join.
  - apply temp_path_differs.
  - apply temp_path_differs_output.
Qed.

End PathsFurther.

(* ================================================================== *)
(** ** Further properties of [addMetadata] *)
(* ================================================================== *)

Section AddMetadataFurther.
Import IO.

Ltac run_io :=
  cbv beta iota zeta delta
    [try_catch bind external read_clock read_clock_ms ret throw console_write
     FFmpegProcessor.processVideo FFmpegProcessor.optimizeForRayBan
     VideoProcessor.lift calls console fst snd negb andb].

Ltac case_result :=
  match goal with
  | |- context [match ?x with Ok _ => _ | Throw _ => _ end] =>
      destruct x as [[]|?] eqn:?
  | |- context [if String.eqb ?a ?b then _ else _] =>
      destruct (String.eqb a b) eqn:?
  end; run_io.

(** The run of [addMetadata] on a video file, with transcoding: the steps in
    order, each stopping the run when it fails. *)
Lemma addMetadata_transcoding_run (o : Oracle) (inputPath : string)
  (outputPath : option string) (config : Types.RayBanConfig) (w : World) :
  VideoProcessor.isVideoFile inputPath = true ->
  VideoProcessor.addMetadata o inputPath outputPath config true w
  = let final := JS.or_else outputPath
                   (VideoProcessor.generateOutputPath inputPath
                      (Types.frontCamera config) None) in
    let temp := VideoProcessor.generateTempPath inputPath "processed"
                  (clock_ms o (calls w)) in
    let metadata := MetadataGenerator.generateMetadata (clock o (calls w)) config in
    let tags := VideoProcessor.writableTags metadata (Types.comment metadata) in
    let failed h e :=
      (Ok false, mkWorld h (("Error processing video: " +:+ e) :: console w)) in
    let transcode := FfmpegProcess inputPath temp config in
    let h1 := transcode :: calls w in
    let h2 := if String.eqb final temp then h1
              else FsCopyFile temp final :: h1 in
    let h3 := ExiftoolWrite final tags :: h2 in
    match ffmpeg_run o (calls w) transcode with
    | Throw e => failed h1 e
    | Ok _ =>
        match (if String.eqb final temp then Ok tt
               else copyFile o h1 temp final) with
        | Throw e => failed h2 e
        | Ok _ =>
            match exiftool_write o h2 final tags with
            | Throw e => failed h3 e
            | Ok _ => (Ok true, mkWorld (FsUnlink temp :: h3) (console w))
            end
        end
    end.
Proof.
  intros Hvideo.
  pose proof (temp_path_differs inputPath (clock_ms o (calls w))) as Htemp.
  unfold VideoProcessor.addMetadata. rewrite Hvideo.
  destruct w as [h con]. run_io. cbv zeta.
  revert Htemp. cbn [calls].
  generalize (VideoProcessor.generateTempPath inputPath "processed" (clock_ms o h)).
  generalize (JS.or_else outputPath
                (VideoProcessor.generateOutputPath inputPath
                   (Types.frontCamera config) None)).
  intros final temp Htemp.
  repeat case_result; try reflexivity; try congruence.
Qed.





(** X6.  A transcoding run without explicit output path, on a video file
    whose transcode and copy succeed: the calls are, in order, the transcode
    into the temporary path, the copy of the temporary file onto the default
    output path and the tag write on that path.  When the write succeeds the
    temporary file is then deleted and the run resolves to [true], whatever
    the deletion answers; when the write fails the run resolves to [false]
    with the error printed, and neither the temporary file nor the copied
    output is deleted. *)
Theorem transcoding_run_steps (o : Oracle) (inputPath : string)
  (config : Types.RayBanConfig) (w : World) :
  let temp := VideoProcessor.generateTempPath inputPath "processed"
                (clock_ms o (calls w)) in
  let final := VideoProcessor.generateOutputPath inputPath
                 (Types.frontCamera config) None in
  let metadata := MetadataGenerator.generateMetadata (clock o (calls w)) config in
  let tags := VideoProcessor.writableTags metadata (Types.comment metadata) in
  let h1 := FfmpegProcess inputPath temp config :: calls w in
  let h2 := FsCopyFile temp final :: h1 in
  VideoProcessor.isVideoFile inputPath = true ->
  ffmpeg_run o (calls w) (FfmpegProcess inputPath temp config) = Ok tt ->
  copyFile o h1 temp final = Ok tt ->
  VideoProcessor.addMetadata o inputPath None config true w
  = match exiftool_write o h2 final tags with
    | Ok _ =>
        (Ok true,
         mkWorld (FsUnlink temp :: ExiftoolWrite final tags :: h2) (console w))
    | Throw e =>
        (Ok false,
         mkWorld (ExiftoolWrite final tags :: h2)
           (("Error processing video: " +:+ e) :: console w))
    end.
Proof.
  intros temp final metadata tags h1 h2 Hvideo Hffmpeg Hcopy.
  rewrite addMetadata_transcoding_run by exact Hvideo.
  cbv zeta. cbn [JS.or_else]. fold temp final metadata tags.
  rewrite Hffmpeg.
  assert (Hfresh : String.eqb final temp = false).
  { rewrite String.eqb_sym. apply temp_path_differs_output. }
  rewrite Hfresh. fold h1. rewrite Hcopy. fold h2. reflexivity.
Qed.

Lemma transcoding_run_steps_witness :
  VideoProcessor.isVideoFile "videos/a.mp4" = true
  /\ VideoProcessor.addMetadata
       (Samples.undeletable [] [] [] Samples.main_camera_tags) "videos/a.mp4"
       None Types.empty_config true Samples.quiet
     = (Ok true,
        mkWorld
          [ FsUnlink "videos/a_processed_1705329000000.mp4";
            ExiftoolWrite "videos/a_rayban.mp4"
              (VideoProcessor.writableTags
                 (MetadataGenerator.generateMetadata Samples.noon
                    Types.empty_config)
                 "Captured with Meta Ray-Ban Smart Glasses - Hands-free recording");
            FsCopyFile "videos/a_processed_1705329000000.mp4"
              "videos/a_rayban.mp4";
            FfmpegProcess "videos/a.mp4" "videos/a_processed_1705329000000.mp4"
              Types.empty_config ]
          []).
Proof.
  split; [reflexivity|].
  rewrite (transcoding_run_steps
             (Samples.undeletable [] [] [] Samples.main_camera_tags)
             "videos/a.mp4" Types.empty_config Samples.quiet
             eq_refl eq_refl eq_refl).
  vm_compute. reflexivity.
Defined.

End AddMetadataFurther.

(* ================================================================== *)
(** ** Further properties of the verifier and of the enumeration *)
(* ================================================================== *)

Section ReadersFurther.
Import IO.

(** X7.  What [addMetadata] writes, [verifyMetadata] accepts: for every
    configuration and time, a file whose four required tags read back as
    the resolver's record holds them verifies, whatever its other tags. *)
Theorem written_tags_verify (o : Oracle) (filePath : string) (w : World)
  (now : JS.Date) (config : Types.RayBanConfig) (comment : string)
  (tags : gmap string string) :
  exiftool_read o (calls w) filePath = Ok tags ->
  Effects.carries tags
    (VideoProcessor.writableTags
       (MetadataGenerator.generateMetadata now config) comment) ->
  fst (VideoProcessor.verifyMetadata o filePath w) = Ok true.
Proof.
  intros Hread (Hmake & Hmodel & Hsoftware & Hlens).
  rewrite verifyMetadata_result, Hread.
  rewrite all_fields_pass; [reflexivity|].
  intros tag Htag. unfold Spec.has_brand_marker.
  cbn in Htag. cbn in Hmake, Hmodel, Hsoftware, Hlens.
  unfold MetadataGenerator.preset_of in *.
  destruct Htag as [<-|[<-|[<-|[<-|[]]]]];
    eexists; (split; [eassumption|]);
    destruct (default false (Types.frontCamera config)); cbn; auto.
Qed.

Lemma written_tags_verify_witness :
  exiftool_read Samples.videos_oracle (calls Samples.quiet) "videos/a_rayban.mp4"
  = Ok Samples.main_camera_tags
  /\ fst (VideoProcessor.verifyMetadata Samples.videos_oracle
            "videos/a_rayban.mp4" Samples.quiet) = Ok true.
Proof.
  split; [reflexivity|].
  apply (written_tags_verify Samples.videos_oracle "videos/a_rayban.mp4"
           Samples.quiet Samples.noon Types.empty_config ""
           Samples.main_camera_tags eq_refl).
  repeat split.
Defined.

Lemma getVideoFiles_loop_reads (o : Oracle) (directory : string)
  (files : list string) :
  forall acc,
    Effects.only_calls Effects.read_only
      (VideoProcessor.getVideoFiles_loop o directory files acc).
Proof.
  induction files as [|file rest IH]; intros acc w.
  - exists []. split; [reflexivity|constructor].
  - cbn [VideoProcessor.getVideoFiles_loop]. unfold bind at 1, external at 1.
    destruct (stat o (calls w) (path.join [directory; file])) as [st|e].
    + match goal with
      | |- context [(if ?b then ?m1 else ?m2) ?w'] =>
          assert (Hrest : exists new,
                     calls (snd ((if b then m1 else m2) w')) = new ++ calls w'
                     /\ Forall (fun c => Effects.read_only c = true) new)
            by (destruct b; apply IH);
          destruct Hrest as (new & -> & Hnew)
      end.
      cbn [calls]. exists (new ++ [FsStat (path.join [directory; file])]).
      rewrite <- app_assoc. split; [reflexivity|].
      apply Forall_app. split; [exact Hnew|repeat constructor].
    + cbn [snd calls]. exists [FsStat (path.join [directory; file])].
      split; [reflexivity|repeat constructor].
Qed.

(** X8.  The two reading operations only read: every call [verifyMetadata]
    makes is a tag read, and every call [getVideoFiles] makes is a directory
    listing or a [stat], whether they succeed or fail. *)
Theorem readers_only_read (o : Oracle) (p : string) :
  Effects.only_calls Effects.read_only (VideoProcessor.verifyMetadata o p)
  /\ Effects.only_calls Effects.read_only (VideoProcessor.getVideoFiles o p).
Proof.
  split; intros w.
  - exists [ExiftoolRead p]. split; [|repeat constructor].
    unfold VideoProcessor.verifyMetadata, try_catch, bind, external,
      VideoProcessor.lift, ret.
    destruct (exiftool_read o (calls w) p) as [tags|e]; [|reflexivity].
    destruct (VideoProcessor.every _ _); reflexivity.
  - unfold VideoProcessor.getVideoFiles, bind, external.
    destruct (readdir o (calls w) p) as [files|e].
    + destruct (getVideoFiles_loop_reads o p files []
                  (mkWorld (FsReaddir p :: calls w) (console w)))
        as (new & Hcalls & Hnew).
      exists (new ++ [FsReaddir p]). rewrite <- app_assoc. split.
      * destruct (VideoProcessor.getVideoFiles_loop o p files [] _) as [[r|e] w1];
          exact Hcalls.
      * apply Forall_app. split; [exact Hnew|repeat constructor].
    + exists [FsReaddir p]. split; [reflexivity|repeat constructor].
Qed.

Lemma getVideoFiles_loop_stat_fails (o : Oracle) (directory file : string)
  (files : list string) :
  In file files ->
  (forall h, exists e, stat o h (path.join [directory; file]) = Throw e) ->
  forall acc w, exists e w1,
    VideoProcessor.getVideoFiles_loop o directory files acc w = (Throw e, w1).
Proof.
  intros Hin Hfail. induction files as [|x rest IH]; [destruct Hin|].
  intros acc w. cbn [VideoProcessor.getVideoFiles_loop].
  unfold bind at 1, external at 1.
  destruct (stat o (calls w) (path.join [directory; x])) as [st|e] eqn:Hstat.
  - destruct Hin as [->|Hin].
    { destruct (Hfail (calls w)) as [e He]. congruence. }
    destruct (isFile st && VideoProcessor.isVideoFile (path.join [directory; x]));
      apply (IH Hin).
  - eauto.
Qed.

(** X9.  An entry that cannot be examined stops the whole batch: when the
    directory listing holds a name whose [stat] fails, [batchProcess] rejects
    with the error of the enumeration, in the world the enumeration left,
    and no file is processed. *)
Theorem batch_rejects_on_unreadable_entry (o : Oracle)
  (process : string -> option string -> Types.RayBanConfig -> IO bool)
  (directory : string) (outputDir : option string)
  (config : Types.RayBanConfig) (w : World)
  (listing : list string) (file : string) :
  readdir o (calls w) directory = Ok listing ->
  In file listing ->
  (forall h, exists e, stat o h (path.join [directory; file]) = Throw e) ->
  exists e w1,
    VideoProcessor.getVideoFiles o directory w = (Throw e, w1)
    /\ VideoProcessor.batchProcess_with o process directory outputDir config w
       = (Throw e, w1).
Proof.
  intros Hlist Hin Hfail.
  assert (Henum : exists e w1,
             VideoProcessor.getVideoFiles o directory w = (Throw e, w1)).
  { unfold VideoProcessor.getVideoFiles, bind at 1, external at 1.
    rewrite Hlist. now apply (getVideoFiles_loop_stat_fails o directory file). }
  destruct Henum as (e & w1 & Henum). exists e, w1. split; [exact Henum|].
  unfold VideoProcessor.batchProcess_with, bind at 1. now rewrite Henum.
Qed.

Lemma batch_rejects_on_unreadable_entry_witness :
  readdir (Samples.broken_link ["a.mp4"; "gone.mp4"; "c.mp4"] "videos/gone.mp4")
    (calls Samples.quiet) "videos"
  = Ok ["a.mp4"; "gone.mp4"; "c.mp4"]
  /\ In "gone.mp4" ["a.mp4"; "gone.mp4"; "c.mp4"]
  /\ exists e w1,
       VideoProcessor.batchProcess
         (Samples.broken_link ["a.mp4"; "gone.mp4"; "c.mp4"] "videos/gone.mp4")
         "videos" None Types.empty_config Samples.quiet
       = (Throw e, w1).
Proof.
  split; [reflexivity|]. split; [cbn; auto|].
  destruct (batch_rejects_on_unreadable_entry
              (Samples.broken_link ["a.mp4"; "gone.mp4"; "c.mp4"]
                 "videos/gone.mp4")
              (fun inputPath outputPath config =>
                 VideoProcessor.addMetadata
                   (Samples.broken_link ["a.mp4"; "gone.mp4"; "c.mp4"]
                      "videos/gone.mp4")
                   inputPath outputPath config false)
              "videos" None Types.empty_config Samples.quiet
              ["a.mp4"; "gone.mp4"; "c.mp4"] "gone.mp4" eq_refl
              (or_intror (or_introl eq_refl))
              (fun h => ex_intro _ "ENOENT: no such file or directory" eq_refl))
    as (e & w1 & _ & Hbatch).
  exists e, w1. exact Hbatch.
Defined.

End ReadersFurther.

(* ================================================================== *)
(** ** Which directory entries are videos *)
(* ================================================================== *)

Section Recognition.

Lemma split_ext_no_dot (e : string) :
  Effects.no_char "." e = true -> path.split_ext e = None.
Proof.
  induction e as [|c e IH]; [reflexivity|].
  cbn. intros [Hc He]%andb_true_iff. rewrite (IH He).
  unfold path.is_dot. apply negb_true_iff in Hc. now rewrite Hc.
Qed.

Lemma split_ext_prepend (stem s a b : string) :
  path.split_ext s = Some (a, b) ->
  path.split_ext (stem +:+ s) = Some (stem +:+ a, b).
Proof.
  intros Hs. induction stem as [|c stem IH]; [exact Hs|].
  rewrite !append_cons. cbn [path.split_ext]. now rewrite IH.
Qed.

Lemma extname_depends_on_last_component (p q : string) :
  path.last_component p = path.last_component q ->
  path.extname p = path.extname q.
Proof. unfold path.extname. now intros ->. Qed.

(** The extension of [stem.e] is [.e]. *)
Lemma extname_of_name (stem e : string) :
  path.nonempty stem = true -> Spec.no_slash stem = true ->
  path.nonempty e = true -> Effects.no_char "." e = true ->
  Spec.no_slash e = true ->
  path.extname (stem +:+ "." +:+ e) = "." +:+ e.
Proof.
  intros Hstem Hns He Hdot Hnse.
  unfold path.extname.
  rewrite last_component_self
    by (rewrite !no_slash_append, Hns, Hnse; reflexivity).
  assert (Hcut : path.split_ext ("." +:+ e) = Some ("", "." +:+ e)).
  { change ("." +:+ e) with (String "." e). cbn [path.split_ext].
    now rewrite (split_ext_no_dot e Hdot). }
  rewrite (split_ext_prepend stem _ _ _ Hcut), append_empty_r.
  destruct stem as [|c stem]; [discriminate Hstem|].
  destruct e as [|x e]; [discriminate He|].
  change ("." +:+ String x e) with (String "." (String x e)).
  cbn [String.eqb].
  destruct (Ascii.eqb c "."); [destruct (String.eqb stem "")|]; reflexivity.
Qed.

(** A name that starts with its only dot has no extension. *)
Lemma extname_of_dotfile (e : string) :
  Effects.no_char "." e = true -> Spec.no_slash e = true ->
  path.extname ("." +:+ e) = "".
Proof.
  intros Hdot Hnse. unfold path.extname.
  rewrite last_component_self by (rewrite no_slash_append, Hnse; reflexivity).
  change ("." +:+ e) with (String "." e). cbn [path.split_ext].
  now rewrite (split_ext_no_dot e Hdot).
Qed.

(** The dot that starts an extension is no part of a character that is
    lowered. *)
Lemma toLowerCase_dot (e : string) :
  JS.toLowerCase ("." +:+ e) = "." +:+ JS.toLowerCase e.
Proof.
  change ("." +:+ e) with (String "." e).
  destruct e as [|c1 [|c2 e]]; reflexivity.
Qed.

(** Whether an entry is a video depends on its name only. *)
Lemma isVideoFile_of_entry (directory name : string) :
  Spec.file_name name = true ->
  VideoProcessor.isVideoFile (path.join [directory; name])
  = VideoProcessor.isVideoFile name.
Proof.
  intros Hname. unfold VideoProcessor.isVideoFile.
  rewrite (extname_depends_on_last_component (path.join [directory; name]) name);
    [reflexivity|].
  pose proof (basename_join directory name Hname) as Hbase.
  unfold path.basename in Hbase. rewrite Hbase.
  symmetry. apply last_component_self.
  now apply file_name_parts in Hname.
Qed.

(** X10.  Recognition of a directory entry: an entry [stem.e] (a non-empty
    stem, a non-empty [e] without dot, no separator) is a video exactly when
    [.e], lower-cased, is one of the six extensions of the allow-list, in
    every directory and whatever the case of [e], the Kelvin sign counting
    as a capital of [k]; an entry [.e] that starts with its only dot is
    never one. *)
Theorem entry_recognition (directory stem e : string) :
  path.nonempty stem = true -> Spec.no_slash stem = true ->
  path.nonempty e = true -> Effects.no_char "." e = true ->
  Spec.no_slash e = true ->
  VideoProcessor.isVideoFile (path.join [directory; stem +:+ "." +:+ e])
  = existsb (String.eqb ("." +:+ JS.toLowerCase e))
      VideoProcessor.VIDEO_EXTENSIONS
  /\ VideoProcessor.isVideoFile (path.join [directory; "." +:+ e]) = false.
Proof.
  intros Hstem Hns He Hdot Hnse. split.
  - rewrite isVideoFile_of_entry.
    + unfold VideoProcessor.isVideoFile.
      rewrite extname_of_name by assumption.
      now rewrite toLowerCase_dot.
    + apply long_name_is_file_name.
      * rewrite !length_append.
        destruct stem; [discriminate Hstem|].
        destruct e; [discriminate He|]. cbn. lia.
      * rewrite !no_slash_append, Hns, Hnse. reflexivity.
  - rewrite isVideoFile_of_entry.
    + unfold VideoProcessor.isVideoFile.
      now rewrite extname_of_dotfile.
    + unfold Spec.file_name. rewrite no_slash_append, Hnse.
      destruct e as [|x e]; [discriminate He|].
      change ("." +:+ String x e) with (String "." (String x e)).
      cbn in Hdot |- *. apply andb_true_iff in Hdot as [Hx _].
      apply negb_true_iff in Hx. rewrite Hx. reflexivity.
Qed.

Lemma entry_recognition_witness :
  path.nonempty "trip.final" = true /\ Spec.no_slash "trip.final" = true
  /\ path.nonempty ("M" +:+ JS.kelvin_sign +:+ "v") = true
  /\ Effects.no_char "." ("M" +:+ JS.kelvin_sign +:+ "v") = true
  /\ Spec.no_slash ("M" +:+ JS.kelvin_sign +:+ "v") = true
  /\ VideoProcessor.isVideoFile
       (path.join ["videos"; "trip.final.M" +:+ JS.kelvin_sign +:+ "v"]) = true
  /\ VideoProcessor.isVideoFile
       (path.join ["videos"; ".M" +:+ JS.kelvin_sign +:+ "v"]) = false.
Proof.
  do 5 (split; [reflexivity|]).
  destruct (entry_recognition "videos" "trip.final"
              ("M" +:+ JS.kelvin_sign +:+ "v")
              eq_refl eq_refl eq_refl eq_refl eq_refl) as [Hvideo Hhidden].
  split; [etransitivity; [exact Hvideo|reflexivity]|exact Hhidden].
Defined.

(** The same entry with ASCII letters in mixed case. *)
Example entry_recognition_mixed_case :
  VideoProcessor.isVideoFile (path.join ["videos"; "trip.final.MoV"]) = true
  /\ VideoProcessor.isVideoFile (path.join ["videos"; ".MoV"]) = false.
Proof. split; reflexivity. Qed.

End Recognition.

(* ================================================================== *)
(** ** Further properties of the transcoding operations *)
(* ================================================================== *)

Section TranscodersFurther.
Import IO.

Ltac run_io :=
  cbv beta iota zeta delta
    [try_catch bind external read_clock read_clock_ms ret throw console_write
     FFmpegProcessor.processVideo FFmpegProcessor.optimizeForRayBan
     VideoProcessor.lift calls console fst snd negb andb].



(** The run of [optimizeForRayBan]: the transcode straight into the final
    path, then the tag write. *)
Lemma optimizeForRayBan_run (o : Oracle) (inputPath : string)
  (outputPath : option string) (config : Types.RayBanConfig) (w : World) :
  VideoProcessor.optimizeForRayBan o inputPath outputPath config w
  = let final := JS.or_else outputPath
                   (VideoProcessor.generateOutputPath inputPath
                      (Types.frontCamera config) (Some "optimized")) in
    let metadata :=
      MetadataGenerator.generateMetadata
        (clock o (FfmpegProcess inputPath final config :: calls w)) config in
    let tags := VideoProcessor.writableTags metadata (Types.comment metadata) in
    let failed h e :=
      (Ok false, mkWorld h (("Error optimizing video: " +:+ e) :: console w)) in
    let h1 := FfmpegProcess inputPath final config :: calls w in
    let h2 := ExiftoolWrite final tags :: h1 in
    match ffmpeg_run o (calls w) (FfmpegProcess inputPath final config) with
    | Throw e => failed h1 e
    | Ok _ =>
        match exiftool_write o h1 final tags with
        | Throw e => failed h2 e
        | Ok _ => (Ok true, mkWorld h2 (console w))
        end
    end.
Proof.
  unfold VideoProcessor.optimizeForRayBan.
  destruct w as [h con]. run_io.
  generalize (JS.or_else outputPath
                (VideoProcessor.generateOutputPath inputPath
                   (Types.frontCamera config) (Some "optimized"))).
  intros final.
  destruct (ffmpeg_run o h (FfmpegProcess inputPath final config)) as [[]|e];
    [|reflexivity].
  destruct (exiftool_write o _ final _) as [[]|e]; reflexivity.
Qed.

(** X11.  [optimizeForRayBan] does not look at the extension of its input
    and transcodes straight into the final output path.  When the transcoder
    fails, for a video file or not, it resolves to [false] with the error
    printed, after that one call: no tag is written. *)
Theorem optimize_stops_on_transcoder_failure (o : Oracle) (inputPath : string)
  (outputPath : option string) (config : Types.RayBanConfig) (w : World)
  (e : string) :
  let final := JS.or_else outputPath
                 (VideoProcessor.generateOutputPath inputPath
                    (Types.frontCamera config) (Some "optimized")) in
  ffmpeg_run o (calls w) (FfmpegProcess inputPath final config) = Throw e ->
  VideoProcessor.optimizeForRayBan o inputPath outputPath config w
  = (Ok false,
     mkWorld (FfmpegProcess inputPath final config :: calls w)
       (("Error optimizing video: " +:+ e) :: console w)).
Proof.
  intros final Hfail. rewrite optimizeForRayBan_run. cbv zeta.
  fold final. now rewrite Hfail.
Qed.

(** The run of [mergeVideos] on two inputs or more. *)
Lemma mergeVideos_run (o : Oracle) (inputPaths : list string)
  (outputPath : string) (config : Types.RayBanConfig) (w : World) :
  2 <= List.length inputPaths ->
  VideoProcessor.mergeVideos o inputPaths outputPath config w
  = let concat := FfmpegConcat inputPaths
                    (FFmpegProcessor.filterComplex inputPaths) outputPath in
    let metadata :=
      MetadataGenerator.generateMetadata (clock o (concat :: calls w)) config in
    let tags :=
      VideoProcessor.writableTags metadata
        (Effects.merged_comment metadata (List.length inputPaths)) in
    let failed h e :=
      (Ok false, mkWorld h (("Error merging videos: " +:+ e) :: console w)) in
    let h1 := concat :: calls w in
    let h2 := ExiftoolWrite outputPath tags :: h1 in
    match ffmpeg_run o (calls w) concat with
    | Throw e => failed h1 e
    | Ok _ =>
        match exiftool_write o h1 outputPath tags with
        | Throw e => failed h2 e
        | Ok _ => (Ok true, mkWorld h2 (console w))
        end
    end.
Proof.
  intros Hlen.
  unfold VideoProcessor.mergeVideos, FFmpegProcessor.mergeVideos,
    Effects.merged_comment.
  destruct (Nat.ltb_spec (List.length inputPaths) 2) as [Hlt|_]; [lia|].
  destruct w as [h con]. run_io.
  destruct (ffmpeg_run o h _) as [[]|e]; [|reflexivity].
  destruct (exiftool_write o _ outputPath _) as [[]|e]; reflexivity.
Qed.

(** X12.  With two inputs or more, [mergeVideos] makes one concatenation
    call that names every input, in order, and the output path; only when it
    succeeds are the tags written, on the output path, with the record's
    comment followed by [ - Merged from N clips] for [N] inputs.  The merge
    resolves to [true] exactly when both calls succeed, and never rejects. *)
Theorem merge_steps (o : Oracle) (inputPaths : list string)
  (outputPath : string) (config : Types.RayBanConfig) (w : World) :
  let concat := FfmpegConcat inputPaths
                  (FFmpegProcessor.filterComplex inputPaths) outputPath in
  let metadata :=
    MetadataGenerator.generateMetadata (clock o (concat :: calls w)) config in
  let tags :=
    VideoProcessor.writableTags metadata
      (Effects.merged_comment metadata (List.length inputPaths)) in
  2 <= List.length inputPaths ->
  exists b : bool,
    fst (VideoProcessor.mergeVideos o inputPaths outputPath config w) = Ok b
    /\ (b = true <->
        ffmpeg_run o (calls w) concat = Ok tt
        /\ exiftool_write o (concat :: calls w) outputPath tags = Ok tt)
    /\ calls (snd (VideoProcessor.mergeVideos o inputPaths outputPath config w))
       = match ffmpeg_run o (calls w) concat with
         | Ok _ => ExiftoolWrite outputPath tags :: concat :: calls w
         | Throw _ => concat :: calls w
         end.
Proof.
  intros concat metadata tags Hlen.
  rewrite mergeVideos_run by exact Hlen. cbv zeta.
  fold concat metadata tags.
  destruct (ffmpeg_run o (calls w) concat) as [[]|e].
  - destruct (exiftool_write o (concat :: calls w) outputPath tags) as [[]|e].
    + exists true. repeat split; auto.
    + exists false. repeat split; auto; try discriminate.
      intros [_ [=]].
  - exists false. repeat split; auto; try discriminate.
    intros [[=] _].
Qed.

Lemma merge_steps_witness :
  2 <= List.length ["a.mp4"; "b.mp4"; "c.mp4"]
  /\ fst (VideoProcessor.mergeVideos Samples.videos_oracle
            ["a.mp4"; "b.mp4"; "c.mp4"] "all.mp4" Types.empty_config
            Samples.quiet) = Ok true
  /\ calls (snd (VideoProcessor.mergeVideos Samples.videos_oracle
                   ["a.mp4"; "b.mp4"; "c.mp4"] "all.mp4" Types.empty_config
                   Samples.quiet))
     = [ ExiftoolWrite "all.mp4"
           (VideoProcessor.writableTags
              (MetadataGenerator.generateMetadata Samples.noon
                 Types.empty_config)
              "Captured with Meta Ray-Ban Smart Glasses - Hands-free recording - Merged from 3 clips");
         FfmpegConcat ["a.mp4"; "b.mp4"; "c.mp4"]
           "[0:v][0:a][1:v][1:a][2:v][2:a]concat=n=3:v=1:a=1[outv][outa]"
           "all.mp4" ].
Proof.
  assert (Hlen : 2 <= List.length ["a.mp4"; "b.mp4"; "c.mp4"]) by (cbn; lia).
  split; [exact Hlen|].
  destruct (merge_steps Samples.videos_oracle ["a.mp4"; "b.mp4"; "c.mp4"]
              "all.mp4" Types.empty_config Samples.quiet Hlen)
    as (b & Hb & Hiff & Hcalls).
  split.
  - rewrite Hb. f_equal. apply Hiff. split; reflexivity.
  - rewrite Hcalls. vm_compute. reflexivity.
Defined.

Lemma optimize_stops_on_transcoder_failure_witness :
  ffmpeg_run
    (Samples.failing_transcoder "ffmpeg exited with code 1")
    (calls Samples.quiet)
    (FfmpegProcess "notes.txt" "notes_rayban_optimized.txt" Types.empty_config)
  = Throw "ffmpeg exited with code 1"
  /\ VideoProcessor.optimizeForRayBan
       (Samples.failing_transcoder "ffmpeg exited with code 1") "notes.txt"
       None Types.empty_config Samples.quiet
     = (Ok false,
        mkWorld
          [FfmpegProcess "notes.txt" "notes_rayban_optimized.txt"
             Types.empty_config]
          ["Error optimizing video: ffmpeg exited with code 1"]).
Proof.
  split; [reflexivity|].
  exact (optimize_stops_on_transcoder_failure
           (Samples.failing_transcoder "ffmpeg exited with code 1") "notes.txt"
           None Types.empty_config Samples.quiet "ffmpeg exited with code 1"
           eq_refl).
Defined.


End TranscodersFurther.

(* ================================================================== *)
(** ** The thumbnail path and the frames directory *)
(* ================================================================== *)

Section DerivedPaths.

Lemma prefix_append (a b : string) : String.prefix a (a +:+ b) = true.
Proof.
  induction a as [|c a IH]; [now destruct b|].
  rewrite append_cons. cbn [String.prefix].
  destruct (ascii_dec c c) as [_|Hne]; [exact IH|congruence].
Qed.

Lemma drop_append (a b : string) : JS.drop (String.length a) (a +:+ b) = b.
Proof.
  induction a as [|c a IH]; [now destruct b|].
  rewrite append_cons. exact IH.
Qed.

Lemma replace_unfold (pat rep s : string) :
  JS.replace pat rep s
  = if String.prefix pat s then rep +:+ JS.drop (String.length pat) s
    else match s with
         | EmptyString => EmptyString
         | String c s' => String c (JS.replace pat rep s')
         end.
Proof. destruct s; reflexivity. Qed.

(** [replace] rewrites the first place where the pattern stands: a text
    without dot before it cannot hold a pattern that starts with a dot. *)
Lemma replace_first_dot (a e rep b : string) :
  Effects.no_char "." a = true ->
  JS.replace (String "." e) rep (a +:+ String "." e +:+ b) = a +:+ rep +:+ b.
Proof.
  intros Ha. induction a as [|c a IH].
  - rewrite !append_empty_l, replace_unfold, prefix_append, drop_append.
    reflexivity.
  - cbn in Ha. apply andb_true_iff in Ha as [Hc Ha].
    apply negb_true_iff in Hc.
    rewrite !(append_cons c a), replace_unfold. cbn [String.prefix].
    destruct (ascii_dec "." c) as [Heq|_].
    { subst c. discriminate Hc. }
    now rewrite (IH Ha).
Qed.

Lemma split_ext_starts_with_dot (seg stem e : string) :
  path.split_ext seg = Some (stem, e) -> exists e', e = String "." e'.
Proof.
  revert stem e. induction seg as [|c seg IH]; intros stem e; [discriminate|].
  cbn. destruct (path.split_ext seg) as [[stem' e']|].
  - intros [= <- <-]. now apply (IH stem').
  - unfold path.is_dot. destruct (Ascii.eqb_spec c "."); [|discriminate].
    intros [= <- <-]. subst c. eauto.
Qed.

Lemma extname_starts_with_dot (p : string) :
  path.extname p = "" \/ exists e, path.extname p = String "." e.
Proof.
  unfold path.extname.
  destruct (path.split_ext (path.last_component p)) as [[stem e]|] eqn:Hext;
    [|now left].
  apply split_ext_starts_with_dot in Hext as [e' ->].
  destruct stem; [now left|].
  destruct (_ && _); [now left|right; eauto].
Qed.

(** X14.  The default thumbnail path replaces the first place where the
    text of the extension stands in the input path: when the path is
    [a ++ ext ++ b] with no dot in [a], the thumbnail path is
    [a ++ "_thumb.jpg" ++ b].  So [dir/clip.mp4] gives [dir/clip_thumb.jpg],
    a directory that holds the extension takes the replacement instead of
    the file name, and a path without extension gets ['_thumb.jpg'] put in
    front of it. *)
Theorem thumbnail_path_first_occurrence (inputPath a b : string) :
  Effects.no_char "." a = true ->
  inputPath = a +:+ path.extname inputPath +:+ b ->
  path.nonempty (path.extname inputPath) = true \/ a = "" ->
  VideoProcessor.thumbnailPath inputPath None = a +:+ "_thumb.jpg" +:+ b.
Proof.
  intros Ha Hp Hcase. unfold VideoProcessor.thumbnailPath. cbn [JS.or_else].
  destruct (extname_starts_with_dot inputPath) as [Hnone|[e He]].
  - rewrite Hnone in *. destruct Hcase as [Hne | ->]; [discriminate Hne|].
    rewrite !append_empty_l in *.
    rewrite replace_unfold. subst b. now destruct inputPath.
  - rewrite He in *. rewrite Hp. now apply replace_first_dot.
Qed.

Lemma thumbnail_path_first_occurrence_witness :
  Effects.no_char "." "takes" = true
  /\ "takes.mp4/clip.mp4" = "takes" +:+ path.extname "takes.mp4/clip.mp4"
                            +:+ "/clip.mp4"
  /\ VideoProcessor.thumbnailPath "takes.mp4/clip.mp4" None
     = "takes_thumb.jpg/clip.mp4".
Proof.
  split; [reflexivity|]. split; [reflexivity|].
  exact (thumbnail_path_first_occurrence "takes.mp4/clip.mp4" "takes"
           "/clip.mp4" eq_refl eq_refl (or_introl eq_refl)).
Defined.

(** X15.  The default frames directory is the entry [<basename>_frames] of
    the input's directory: it is the join of [dirname(input)] with that
    name, and that name is its last component, [<basename>] being the
    input's last component without its extension; it is never the input
    path itself.  For [videos/clip.mp4] it is [videos/clip_frames]. *)
Theorem frames_directory (inputPath : string) :
  VideoProcessor.framesDir inputPath None
  = path.join [path.dirname inputPath;
               path.basename inputPath (Some (path.extname inputPath))
               +:+ "_frames"]
  /\ path.basename (VideoProcessor.framesDir inputPath None) None
     = path.basename inputPath (Some (path.extname inputPath)) +:+ "_frames"
  /\ String.eqb (VideoProcessor.framesDir inputPath None) inputPath = false
  /\ VideoProcessor.framesDir "videos/clip.mp4" None = "videos/clip_frames"
  /\ path.dirname "videos/clip_frames" = path.dirname "videos/clip.mp4".
Proof.
  split; [reflexivity|].
  cut (path.basename (VideoProcessor.framesDir inputPath None) None
       = path.basename inputPath (Some (path.extname inputPath)) +:+ "_frames"
       /\ String.eqb (VideoProcessor.framesDir inputPath None) inputPath = false).
  { intros [Hname Hother]. repeat split; [exact Hname|exact Hother]. }
  destruct (basename_extname_no_slash inputPath) as [Hns _].
  set (name := path.basename inputPath (Some (path.extname inputPath))) in *.
  assert (Hname : Spec.file_name (name +:+ "_frames") = true).
  { apply long_name_is_file_name.
    - rewrite length_append. cbn. lia.
    - rewrite no_slash_append, Hns. reflexivity. }
  unfold VideoProcessor.framesDir. cbn [JS.or_else]. fold name. split.
  - now apply basename_join.
  - apply String.eqb_neq. intros Heq.
    apply (f_equal (fun p => path.basename p None)) in Heq.
    rewrite basename_join in Heq by exact Hname.
    unfold path.basename in Heq at 1.
    rewrite <- basename_extname in Heq. fold name in Heq.
    apply String.app_inj in Heq.
    destruct (extname_starts_with_dot inputPath) as [Hnone|[e He]];
      rewrite ?Hnone, ?He in Heq; discriminate Heq.
Qed.

End DerivedPaths.

(* ================================================================== *)
(** ** The argument list of [getMetadataAsExifArgs] *)
(* ================================================================== *)

Section ExifArgs.
Import Types.











End ExifArgs.

(* ================================================================== *)
(** ** Operations that catch their failures *)
(* ================================================================== *)

Section Wrapped.
Import IO.

Lemma try_catch_resolves {A} (m : IO A) (handler : string -> IO A) (w : World) :
  (forall e w', exists a w1, handler e w' = (Ok a, w1)) ->
  exists a w1, try_catch m handler w = (Ok a, w1).
Proof.
  intros Hhandler. unfold try_catch.
  destruct (m w) as [[a|e] w'].
  - exists a, w'. reflexivity.
  - apply Hhandler.
Qed.

Lemma report_resolves (line : string) (w : World) :
  exists (b : bool) (w1 : World),
    bind (console_write line) (fun _ => ret false) w = (Ok b, w1).
Proof. eexists false, _. reflexivity. Qed.

(** X17.  The operations written as one [try { ... } catch] never reject:
    for every answer of the outside and in every world, [addMetadata],
    [processAndAddMetadata], [optimizeForRayBan], [mergeVideos] and
    [verifyMetadata] resolve to a boolean. *)
Theorem wrapped_operations_never_reject (o : Oracle) (w : World)
  (inputPath : string) (outputPath : option string)
  (config : Types.RayBanConfig) (processVideo : bool)
  (inputPaths : list string) (mergedPath filePath : string) :
  (exists b w1,
     VideoProcessor.addMetadata o inputPath outputPath config processVideo w
     = (Ok b, w1))
  /\ (exists b w1,
        VideoProcessor.processAndAddMetadata o inputPath outputPath config w
        = (Ok b, w1))
  /\ (exists b w1,
        VideoProcessor.optimizeForRayBan o inputPath outputPath config w
        = (Ok b, w1))
  /\ (exists b w1,
        VideoProcessor.mergeVideos o inputPaths mergedPath config w
        = (Ok b, w1))
  /\ (exists b w1,
        VideoProcessor.verifyMetadata o filePath w = (Ok b, w1)).
Proof.
  repeat split.
  - apply try_catch_resolves. intros e w'. apply report_resolves.
  - apply try_catch_resolves. intros e w'. apply report_resolves.
  - apply try_catch_resolves. intros e w'. apply report_resolves.
  - apply try_catch_resolves. intros e w'. apply report_resolves.
  - apply try_catch_resolves. intros e w'. eexists false, _. reflexivity.
Qed.

End Wrapped.
